(** * aws-janitor/resources/route53.go

    A shallow embedding of the Route53 handler of the AWS janitor: the two
    ownership filters, the per-zone lister, the mark-and-sweep pass and the
    inventory lister, together with the properties the specification states
    about them.

    Conventions of the embedding.
    - A Go [*string] is an [option string]; [aws.StringValue] reads it with
      the empty string for [nil], a plain dereference panics on [nil].
    - A function that can panic returns an [outcome].
    - The provider (the [*route53.Route53] client) is a record of what its
      three calls answer; paginated calls answer the pages they deliver and
      the error, if any, that ends them.
    - Everything the code does to the outside (log lines, provider calls,
      [Mark] calls) is appended to a trace of events, in program order. *)

From Stdlib Require Import ZArith Ascii String Lia.
From stdpp Require Import base option list strings gmap.

Open Scope string_scope.
Open Scope list_scope.
Open Scope nat_scope.

(** ** Data *)

(** [aws.StringValue]: the value behind the pointer, or the empty string. *)
Definition aws_StringValue (p : option string) : string :=
  match p with
  | Some s => s
  | None => ""
  end.

(** [route53.HostedZone], the two members the handler reads. *)
Record HostedZone := mkZone {
  zId : option string;
  zName : option string
}.

(** [route53.ResourceRecordSet]: name, type, and the rest of the record
    (its values), which the handler passes on untouched. *)
Record ResourceRecordSet := mkRRS {
  rName : option string;
  rType : option string;
  rRecords : list string
}.

(** [route53ResourceRecordSet]: a record set together with its zone. *)
Record route53ResourceRecordSet := mkR53 {
  zone : HostedZone;
  obj : ResourceRecordSet
}.

#[global] Instance HostedZone_eq_dec : EqDecision HostedZone.
Proof. solve_decision. Defined.
#[global] Instance ResourceRecordSet_eq_dec : EqDecision ResourceRecordSet.
Proof. solve_decision. Defined.
#[global] Instance route53ResourceRecordSet_eq_dec :
  EqDecision route53ResourceRecordSet.
Proof. solve_decision. Defined.

(** Errors: what the provider reports, and [errors.Wrapf] around a cause. *)
Inductive error :=
| AwsError (code : string)
| Wrapped (cause : error) (format : string) (args : list string).

(** [errors.Wrapf(err, format, args...)] is [nil] when [err] is [nil]. *)
Definition errors_Wrapf (err : option error) (format : string)
    (args : list string) : option error :=
  match err with
  | None => None
  | Some e => Some (Wrapped e format args)
  end.

(** A run either completes with a value or panics. *)
Inductive outcome (A : Type) :=
| Done (a : A)
| Panic.
Arguments Done {A} a.
Arguments Panic {A}.

#[global] Instance outcome_ret : MRet outcome := fun A a => Done a.
#[global] Instance outcome_bind : MBind outcome := fun A B k m =>
  match m with
  | Done a => k a
  | Panic => Panic
  end.

(** [*p] on a [*string]. *)
Definition deref (p : option string) : outcome string :=
  match p with
  | Some s => Done s
  | None => Panic
  end.

(** ** Regular expressions

    The fragment of Go's [regexp] syntax that [managedNameRegexes] uses:
    literals, character ranges, alternation (for a class of several
    ranges), concatenation and bounded repetition [{min,max}].  All four
    expressions start with [^] and none ends with [$], so [MatchString]
    asks whether some prefix of the name is in the language. *)
Inductive regex :=
| ReNone
| ReEps
| ReLit (c : ascii)
| ReRange (lo hi : ascii)
| ReAlt (r1 r2 : regex)
| ReCat (r1 r2 : regex)
| ReRep (r : regex) (min max : nat).

Definition in_range (lo hi c : ascii) : bool :=
  (N_of_ascii lo <=? N_of_ascii c)%N && (N_of_ascii c <=? N_of_ascii hi)%N.

Fixpoint nullable (r : regex) : bool :=
  match r with
  | ReNone => false
  | ReEps => true
  | ReLit _ => false
  | ReRange _ _ => false
  | ReAlt r1 r2 => nullable r1 || nullable r2
  | ReCat r1 r2 => nullable r1 && nullable r2
  | ReRep r min _ => match min with 0 => true | S _ => nullable r end
  end.

(** Brzozowski derivative: what is left to match after reading [c]. *)
Fixpoint deriv (c : ascii) (r : regex) : regex :=
  match r with
  | ReNone => ReNone
  | ReEps => ReNone
  | ReLit d => if Ascii.eqb c d then ReEps else ReNone
  | ReRange lo hi => if in_range lo hi c then ReEps else ReNone
  | ReAlt r1 r2 => ReAlt (deriv c r1) (deriv c r2)
  | ReCat r1 r2 =>
      if nullable r1
      then ReAlt (ReCat (deriv c r1) r2) (deriv c r2)
      else ReCat (deriv c r1) r2
  | ReRep r min max =>
      match max with
      | 0 => ReNone
      | S max' => ReCat (deriv c r) (ReRep r (pred min) max')
      end
  end.

(** [re.MatchString(s)] for an expression anchored at the start only. *)
Fixpoint MatchString (re : regex) (s : string) : bool :=
  nullable re ||
  match s with
  | EmptyString => false
  | String c s' => MatchString (deriv c re) s'
  end.

(** The language of an expression: [matches re s] when the whole of [s]
    is in it.  [x{min,max}] is [x] repeated at least [min] and at most
    [max] times. *)
Inductive matches : regex -> string -> Prop :=
| matches_eps : matches ReEps ""
| matches_lit c : matches (ReLit c) (String c "")
| matches_range lo hi c :
    in_range lo hi c = true -> matches (ReRange lo hi) (String c "")
| matches_alt_l r1 r2 s : matches r1 s -> matches (ReAlt r1 r2) s
| matches_alt_r r1 r2 s : matches r2 s -> matches (ReAlt r1 r2) s
| matches_cat r1 r2 s1 s2 :
    matches r1 s1 -> matches r2 s2 -> matches (ReCat r1 r2) (s1 +:+ s2)
| matches_rep_done r max : matches (ReRep r 0 max) ""
| matches_rep_more r min max s1 s2 :
    matches r s1 -> matches (ReRep r (pred min) max) s2 ->
    matches (ReRep r min (S max)) (s1 +:+ s2).

(** The expressions whose repeated parts cannot match the empty string;
    those of [managedNameRegexes] repeat character classes only. *)
Fixpoint plainRepeats (r : regex) : bool :=
  match r with
  | ReAlt r1 r2 | ReCat r1 r2 => plainRepeats r1 && plainRepeats r2
  | ReRep r _ _ => plainRepeats r && negb (nullable r)
  | _ => true
  end.

(** A literal string as an expression. *)
Fixpoint lit (s : string) : regex :=
  match s with
  | EmptyString => ReEps
  | String c s' => ReCat (ReLit c) (lit s')
  end.

Definition cat (rs : list regex) : regex := foldr ReCat ReEps rs.

(** [[0-9a-z]], [[0-9a-f]] and [[a-z]]. *)
Definition class_0_9a_z : regex := ReAlt (ReRange "0" "9") (ReRange "a" "z").
Definition class_0_9a_f : regex := ReAlt (ReRange "0" "9") (ReRange "a" "f").
Definition class_a_z : regex := ReRange "a" "z".

(** [e2e-[0-9a-z]{1,10}-[0-9a-f]{5}\.], the tail the four expressions share. *)
Definition cluster_tail : regex :=
  cat [lit "e2e-"; ReRep class_0_9a_z 1 10; lit "-";
       ReRep class_0_9a_f 5 5; lit "."].

Definition managedNameRegexes : list regex :=
  [ (* ^api\.e2e-[0-9a-z]{1,10}-[0-9a-f]{5}\. *)
    cat [lit "api."; cluster_tail];
    (* ^api\.internal\.e2e-[0-9a-z]{1,10}-[0-9a-f]{5}\. *)
    cat [lit "api.internal."; cluster_tail];
    (* ^etcd-[a-z]\.internal\.e2e-[0-9a-z]{1,10}-[0-9a-f]{5}\. *)
    cat [lit "etcd-"; class_a_z; lit ".internal."; cluster_tail];
    (* ^etcd-events-[a-z]\.internal\.e2e-[0-9a-z]{1,10}-[0-9a-f]{5}\. *)
    cat [lit "etcd-events-"; class_a_z; lit ".internal."; cluster_tail] ].

(** ** Events *)

Inductive level := Info | Warning.

(** The log lines of the file, each with the arguments it is formatted
    with. *)
Inductive message :=
| MsgUnknownZone (name : string)
    (* "unknown zone %q; ignoring" *)
| MsgIgnoringUnmanaged (name : string)
    (* "Ignoring unmanaged name %q" *)
| MsgDeleting (arn : string) (name : string)
    (* "%s: deleting %T: %s" *)
| MsgDeletingRecords (n : nat)
    (* "Deleting %d route53 resource records" *)
| MsgUnableToDelete (err : error).
    (* "unable to delete DNS records: %v" *)

(** [route53.Change] and [route53.ChangeResourceRecordSetsInput]. *)
Inductive ChangeAction := ChangeActionDelete.

Record Change := mkChange {
  Action : ChangeAction;
  ResourceRecordSet_ : ResourceRecordSet
}.

Record ChangeResourceRecordSetsInput := mkChangeInput {
  HostedZoneId : option string;
  Changes : list Change
}.

Inductive event :=
| Log (l : level) (m : message)
| ListRecords (hostedZoneId : option string)
| Marked (o : route53ResourceRecordSet) (old : bool)
| ChangeRequest (req : ChangeResourceRecordSetsInput) (res : option error).

(** ** The filters *)

(** [zoneIsManaged]: the verdict, and the line it logs. *)
Definition zoneIsManaged (z : HostedZone) : bool * list event :=
  let name := aws_StringValue (zName z) in
  if String.eqb "test-cncf-aws.k8s.io." name
  then (true, [])
  else (false, [Log Info (MsgUnknownZone name)]).

(** [resourceRecordSetIsManaged]: the verdict, and the line it logs. *)
Definition resourceRecordSetIsManaged (rrs : ResourceRecordSet)
    : bool * list event :=
  if negb (String.eqb "A" (aws_StringValue (rType rrs)))
  then (false, [])
  else
    let name := aws_StringValue (rName rrs) in
    if existsb (fun managedNameRegex => MatchString managedNameRegex name)
               managedNameRegexes
    then (true, [])
    else (false, [Log Info (MsgIgnoringUnmanaged name)]).

(** ** Resource identity *)

Definition ARN (r : route53ResourceRecordSet) : string :=
  "route53::" +:+ aws_StringValue (zId (zone r)) +:+ "::" +:+
  aws_StringValue (rType (obj r)) +:+ "::" +:+ aws_StringValue (rName (obj r)).

Definition ResourceKey (r : route53ResourceRecordSet) : string := ARN r.

(** ** The tracker, the options, the provider *)

(** Modelled from the spec: the tracker [Set] and its constructor [NewSet]
    are declared in another file of the package.  The spec describes the
    tracker as a mapping from resource key to first-seen timestamp, with a
    retention threshold that it owns; [ListAll] writes its [firstSeen] map
    directly.  Timestamps are integers. *)
Record Set_ := mkSet {
  firstSeen : gmap string Z;
  ttl : Z
}.

Definition NewSet (ttl : Z) : Set_ := mkSet ∅ ttl.

(** [set.firstSeen[arn] = now] *)
Definition setFirstSeen (arn : string) (now : Z) (set : Set_) : Set_ :=
  mkSet (<[arn := now]> (firstSeen set)) (ttl set).

(** Modelled from the spec: [Options], declared in another file of the
    package: account identifier, region and dry-run flag (the session is
    only handed to the provider's constructor). *)
Record Options := mkOptions {
  Account : string;
  Region : string;
  DryRun : bool
}.

(** What a paginated call answers: the pages it delivers, in order, and the
    error that ends the enumeration, if a request fails. *)
Record Paged (A : Type) := mkPaged {
  pages : list (list A);
  failure : option error
}.
Arguments mkPaged {A} pages failure.
Arguments pages {A} p.
Arguments failure {A} p.

(** The provider behind [svc]: the zones, the record sets of each zone id,
    and the answer to the n-th change request of the run. *)
Record Route53 := mkRoute53 {
  ListHostedZones : Paged HostedZone;
  ListResourceRecordSets : option string -> Paged ResourceRecordSet;
  ChangeResourceRecordSets :
    nat -> ChangeResourceRecordSetsInput -> option error
}.

(** ** Loops and pagination *)

(** [for _, x := range l { body }], where the body says whether the
    enclosing callback goes on ([true]) or has returned [false]. *)
Fixpoint forEach {A S : Type} (body : A -> S -> outcome (bool * S))
    (l : list A) (s : S) : outcome (bool * S) :=
  match l with
  | [] => Done (true, s)
  | x :: l' =>
      '(continue, s') ← body x s;
      if continue : bool then forEach body l' s' else Done (false, s')
  end.

(** [svc.List...Pages(input, fn)]: [fn] is called on each page until it
    returns [false] or the pages end; the error of the request that failed,
    if one did, is returned once the pages before it have been handed over. *)
Fixpoint eachPage {A S : Type} (fn : list A -> S -> outcome (bool * S))
    (ps : list (list A)) (err : option error) (s : S)
    : outcome (option error * S) :=
  match ps with
  | [] => Done (err, s)
  | p :: ps' =>
      '(continue, s') ← fn p s;
      if continue : bool then eachPage fn ps' err s' else Done (None, s')
  end.

Definition listPages {A S : Type} (fn : list A -> S -> outcome (bool * S))
    (answer : Paged A) (s : S) : outcome (option error * S) :=
  eachPage fn (pages answer) (failure answer) s.

(** The change requests of a trace, in order. *)
Definition requestOf (e : event) : option ChangeResourceRecordSetsInput :=
  match e with
  | ChangeRequest req _ => Some req
  | _ => None
  end.

Definition requests (trace : list event)
    : list ChangeResourceRecordSetsInput :=
  omap requestOf trace.

(** The resources [Mark] was called on, in order. *)
Definition markOf (e : event) : option route53ResourceRecordSet :=
  match e with
  | Marked o _ => Some o
  | _ => None
  end.

Definition marks (trace : list event) : list route53ResourceRecordSet :=
  omap markOf trace.

(** The zone ids whose record sets were asked for, in order. *)
Definition listingOf (e : event) : option (option string) :=
  match e with
  | ListRecords id => Some id
  | _ => None
  end.

Definition listings (trace : list event) : list (option string) :=
  omap listingOf trace.

(** Limit of 1000 changes per request. *)
Definition changeLimit : nat := 1000.

Section Handler.

(** [set.Mark(o, created)], a method of the tracker declared in another
    file: any function of the set, the resource and the creation time that
    answers whether the resource is to be deleted and leaves the set
    updated. *)
Variable Mark :
  Set_ -> route53ResourceRecordSet -> option Z -> bool * Set_.

(** *** route53ResourceRecordSetsForZone *)

(** The state of [recordsPageFunc]: the set, the events so far and the
    captured [toDelete]. *)
Definition listerState : Type :=
  Set_ * list event * list route53ResourceRecordSet.

(** One iteration of the loop over [records.ResourceRecordSets]. *)
Definition recordsBody (zone : HostedZone) (rrs : ResourceRecordSet)
    (st : listerState) : outcome (bool * listerState) :=
  let '(set, evs, toDelete) := st in
  let '(managed, logs) := resourceRecordSetIsManaged rrs in
  let evs := evs ++ logs in
  if negb managed then Done (true, (set, evs, toDelete))
  else
    let o := mkR53 zone rrs in
    let '(old, set) := Mark set o None in
    let evs := evs ++ [Marked o old] in
    if old then
      name ← deref (rName rrs);
      Done (true,
            (set, evs ++ [Log Warning (MsgDeleting (ARN o) name)], toDelete))
    else Done (true, (set, evs, toDelete)).

Definition recordsPageFunc (zone : HostedZone)
    (records : list ResourceRecordSet) (st : listerState)
    : outcome (bool * listerState) :=
  '(_, st) ← forEach (recordsBody zone) records st;
  Done (true, st).

(** The slice it returns, the error, the set as it leaves it, and the
    events of the call. *)
Definition route53ResourceRecordSetsForZone (svc : Route53)
    (zone : HostedZone) (set : Set_)
    : outcome (list route53ResourceRecordSet * option error
               * Set_ * list event) :=
  let toDelete := [] in
  '(err, (set, evs, toDelete)) ←
    listPages (recordsPageFunc zone) (ListResourceRecordSets svc (zId zone))
              (set, [ListRecords (zId zone)], toDelete);
  match err with
  | Some e => Done ([], Some e, set, evs)
  | None => Done (toDelete, None, set, evs)
  end.

(** *** MarkAndSweep *)

(** [for len(changes) != 0 { ... }]: one request per iteration.  Every
    iteration shortens [changes], so [length changes] iterations are
    enough fuel. *)
Fixpoint deleteChunks (fuel : nat) (svc : Route53) (z : HostedZone)
    (changes : list Change) (trace : list event) : list event :=
  match fuel with
  | 0 => trace
  | S fuel' =>
      match changes with
      | [] => trace
      | _ :: _ =>
          let chunk := changes in
          let '(chunk, changes) :=
            if changeLimit <? length chunk
            then (take changeLimit chunk, drop changeLimit changes)
            else (chunk, []) in
          let trace :=
            trace ++ [Log Info (MsgDeletingRecords (length chunk))] in
          let deleteReq := mkChangeInput (zId z) chunk in
          let err :=
            ChangeResourceRecordSets svc (length (requests trace)) deleteReq in
          let trace := trace ++ [ChangeRequest deleteReq err] in
          let trace :=
            match err with
            | Some e => trace ++ [Log Warning (MsgUnableToDelete e)]
            | None => trace
            end in
          deleteChunks fuel' svc z changes trace
      end
  end.

(** The state of [pageFunc]: the set, the trace and the captured
    [listError]. *)
Definition sweepState : Type := Set_ * list event * option error.

Section Sweep.

(** The per-zone lister the sweep calls.  The sweep is stated over it, so
    that what it does with a candidate list is checked for lists of any
    length; [MarkAndSweep] below is the sweep over the lister of the
    source. *)
Variable forZone :
  HostedZone -> Set_ ->
  outcome (list route53ResourceRecordSet * option error * Set_ * list event).

(** One iteration of the loop over [zones.HostedZones]. *)
Definition zonesBody (opts : Options) (svc : Route53) (z : HostedZone)
    (st : sweepState) : outcome (bool * sweepState) :=
  let '(set, trace, listError) := st in
  let '(managed, logs) := zoneIsManaged z in
  let trace := trace ++ logs in
  if negb managed then Done (true, (set, trace, listError))
  else
    '(toDelete, err, set, evs) ← forZone z set;
    let trace := trace ++ evs in
    match err with
    | Some e => Done (false, (set, trace, Some e))
    | None =>
        if DryRun opts then Done (true, (set, trace, listError))
        else
          let changes :=
            map (fun rrs => mkChange ChangeActionDelete (obj rrs)) toDelete in
          Done (true,
                (set, deleteChunks (length changes) svc z changes trace,
                 listError))
    end.

Definition pageFunc (opts : Options) (svc : Route53)
    (zones : list HostedZone) (st : sweepState)
    : outcome (bool * sweepState) :=
  forEach (zonesBody opts svc) zones st.

(** The error it returns, the set as it leaves it, and the trace. *)
Definition sweep (opts : Options) (svc : Route53) (set : Set_)
    : outcome (option error * Set_ * list event) :=
  '(err, (set, trace, listError)) ←
    listPages (pageFunc opts svc) (ListHostedZones svc) (set, [], None);
  match listError with
  | Some e => Done (Some e, set, trace)
  | None => Done (err, set, trace)
  end.

End Sweep.

Definition MarkAndSweep (opts : Options) (svc : Route53) (set : Set_)
    : outcome (option error * Set_ * list event) :=
  sweep (route53ResourceRecordSetsForZone svc) opts svc set.

End Handler.

(** *** ListAll *)

Section Inventory.

(** [time.Now()]: the reading of the n-th call of the run. *)
Variable now : nat -> Z.

(** The state of the record-set callback: the set and the number of clock
    readings so far. *)
Definition recordSetsPageFunc (z : HostedZone)
    (recordSets : list ResourceRecordSet) (st : Set_ * nat)
    : outcome (bool * (Set_ * nat)) :=
  let '(set, ticks) := st in
  let now_ := now ticks in
  let set :=
    foldl (fun set recordSet =>
             let arn := ARN (mkR53 z recordSet) in
             setFirstSeen arn now_ set)
          set recordSets in
  Done (true, (set, S ticks)).

(** The state of the zone callback: the set, the clock readings, the trace
    and the captured [rrsErr]. *)
Definition inventoryState : Type := Set_ * nat * list event * option error.

Definition inventoryBody (opts : Options) (svc : Route53) (z : HostedZone)
    (st : inventoryState) : outcome (bool * inventoryState) :=
  let '(set, ticks, trace, rrsErr) := st in
  let '(managed, logs) := zoneIsManaged z in
  let trace := trace ++ logs in
  if negb managed then Done (true, (set, ticks, trace, rrsErr))
  else
    let trace := trace ++ [ListRecords (zId z)] in
    '(err, (set, ticks)) ←
      listPages (recordSetsPageFunc z) (ListResourceRecordSets svc (zId z))
                (set, ticks);
    match err with
    | Some e =>
        id ← deref (zId z);
        let rrsErr :=
          errors_Wrapf (Some e)
            "couldn't describe route53 resources for %q in %q zone %q"
            [Account opts; Region opts; id] in
        Done (false, (set, ticks, trace, rrsErr))
    | None => Done (true, (set, ticks, trace, rrsErr))
    end.

(** The set and the error it returns (the set is a pointer, [None] would
    be [nil]), and the trace. *)
Definition ListAll (opts : Options) (svc : Route53)
    : outcome (option Set_ * option error * list event) :=
  let set := NewSet 0 in
  '(err, (set, _, trace, rrsErr)) ←
    listPages (forEach (inventoryBody opts svc)) (ListHostedZones svc)
              (set, 0, [], None);
  match rrsErr with
  | Some e => Done (Some set, Some e, trace)
  | None =>
      Done (Some set,
            errors_Wrapf err
              "couldn't describe route53 instance profiles for %q in %q"
              [Account opts; Region opts],
            trace)
  end.

End Inventory.

(** * What the runs are compared with

    Functions of the provider's answers alone, in the words of the
    specification; the theorems relate the runs of the handler to them. *)

(** The verdicts of the two filters. *)
Definition managedZone (z : HostedZone) : bool := fst (zoneIsManaged z).

Definition managedRecord (rrs : ResourceRecordSet) : bool :=
  fst (resourceRecordSetIsManaged rrs).

(** A stretch of trace that holds log lines only. *)
Definition onlyLogs (t : list event) : Prop :=
  requests t = [] /\ marks t = [] /\ listings t = [].

(** The record sets a zone's listing delivers, all pages together. *)
Definition recordsOf (svc : Route53) (z : HostedZone)
    : list ResourceRecordSet :=
  concat (pages (ListResourceRecordSets svc (zId z))).

(** The resources of a zone that pass [resourceRecordSetIsManaged]. *)
Definition managedRecordsOf (svc : Route53) (z : HostedZone)
    : list route53ResourceRecordSet :=
  map (mkR53 z) (List.filter managedRecord (recordsOf svc z)).

(** The resources for which [Mark] answered true, in order: the deletion
    candidates as the spec words them. *)
Definition candidateOf (e : event) : option route53ResourceRecordSet :=
  match e with
  | Marked o true => Some o
  | _ => None
  end.

Definition candidates (trace : list event) : list route53ResourceRecordSet :=
  omap candidateOf trace.

(** The per-zone lister as the spec words it: the records for which [Mark]
    returned true are the deletion candidates of the pass, so each of them
    is appended to [toDelete].  It differs from [recordsBody] in that one
    step. *)
Section ListerAsSpecified.

Variable Mark :
  Set_ -> route53ResourceRecordSet -> option Z -> bool * Set_.

Definition recordsBody_spec (zone : HostedZone) (rrs : ResourceRecordSet)
    (st : listerState) : outcome (bool * listerState) :=
  let '(set, evs, toDelete) := st in
  let '(managed, logs) := resourceRecordSetIsManaged rrs in
  let evs := evs ++ logs in
  if negb managed then Done (true, (set, evs, toDelete))
  else
    let o := mkR53 zone rrs in
    let '(old, set) := Mark set o None in
    let evs := evs ++ [Marked o old] in
    if old then
      name ← deref (rName rrs);
      Done (true,
            (set, evs ++ [Log Warning (MsgDeleting (ARN o) name)],
             toDelete ++ [o]))
    else Done (true, (set, evs, toDelete)).

Definition recordsPageFunc_spec (zone : HostedZone)
    (records : list ResourceRecordSet) (st : listerState)
    : outcome (bool * listerState) :=
  '(_, st) ← forEach (recordsBody_spec zone) records st;
  Done (true, st).

Definition route53ResourceRecordSetsForZone_spec (svc : Route53)
    (zone : HostedZone) (set : Set_)
    : outcome (list route53ResourceRecordSet * option error
               * Set_ * list event) :=
  '(err, (set, evs, toDelete)) ←
    listPages (recordsPageFunc_spec zone)
              (ListResourceRecordSets svc (zId zone))
              (set, [ListRecords (zId zone)], []);
  match err with
  | Some e => Done ([], Some e, set, evs)
  | None => Done (toDelete, None, set, evs)
  end.

End ListerAsSpecified.

(** The zones the zone listing delivers, all pages together. *)
Definition zonesOf (svc : Route53) : list HostedZone :=
  concat (pages (ListHostedZones svc)).

(** The managed zones an enumeration gets to: those up to and including
    the first one whose record listing fails. *)
Fixpoint reached (svc : Route53) (zs : list HostedZone) : list HostedZone :=
  match zs with
  | [] => []
  | z :: zs' =>
      if managedZone z then
        match failure (ListResourceRecordSets svc (zId z)) with
        | Some _ => [z]
        | None => z :: reached svc zs'
        end
      else reached svc zs'
  end.

(** The first managed zone whose record listing fails, with the error. *)
Fixpoint firstFailure (svc : Route53) (zs : list HostedZone)
    : option (HostedZone * error) :=
  match zs with
  | [] => None
  | z :: zs' =>
      if managedZone z then
        match failure (ListResourceRecordSets svc (zId z)) with
        | Some e => Some (z, e)
        | None => firstFailure svc zs'
        end
      else firstFailure svc zs'
  end.

(** The enumeration failure of a sweep: the first record listing that
    fails, else the failure of the zone listing, else none. *)
Definition sweepError (svc : Route53) : option error :=
  match firstFailure svc (zonesOf svc) with
  | Some (_, e) => Some e
  | None => failure (ListHostedZones svc)
  end.

(** The same provider with other answers to its change requests. *)
Definition withChanges (svc : Route53)
    (f : nat -> ChangeResourceRecordSetsInput -> option error) : Route53 :=
  mkRoute53 (ListHostedZones svc) (ListResourceRecordSets svc) f.

(** The same provider whose zone listing delivers [zs] in one page and
    ends there. *)
Definition withZones (svc : Route53) (zs : list HostedZone) : Route53 :=
  mkRoute53 (mkPaged [zs] None) (ListResourceRecordSets svc)
            (ChangeResourceRecordSets svc).

(** A trace without the answers to its change requests and without the
    warnings about the failed ones: what was attempted. *)
Definition attemptOf (e : event) : option event :=
  match e with
  | Log _ (MsgUnableToDelete _) => None
  | ChangeRequest req _ => Some (ChangeRequest req None)
  | _ => Some e
  end.

Definition attempts (trace : list event) : list event :=
  omap attemptOf trace.

(** One request of the loop: for the zone, and within the limit. *)
Definition wellFormedRequest (z : HostedZone)
    (req : ChangeResourceRecordSetsInput) : Prop :=
  HostedZoneId req = zId z /\
  0 < length (Changes req) /\ length (Changes req) <= changeLimit.

(** The quotient rounded up. *)
Definition ceilDiv (n d : nat) : nat := (n + d - 1) / d.

(** A zone has an identity: the zones the provider delivers carry an
    id. *)
Definition zonesCarryId (svc : Route53) : Prop :=
  forall z, In z (zonesOf svc) -> zId z <> None.

(** The writes of [ListAll] to [firstSeen], in order: every record set of
    every page a reached zone delivers, with the clock reading of its
    page. *)
Fixpoint pageWrites (now : nat -> Z) (z : HostedZone)
    (ps : list (list ResourceRecordSet)) (ticks : nat) : list (string * Z) :=
  match ps with
  | [] => []
  | p :: ps' =>
      map (fun r => (ARN (mkR53 z r), now ticks)) p
      ++ pageWrites now z ps' (S ticks)
  end.

Fixpoint zoneWrites (now : nat -> Z) (svc : Route53) (zs : list HostedZone)
    (ticks : nat) : list (string * Z) :=
  match zs with
  | [] => []
  | z :: zs' =>
      if managedZone z then
        let answer := ListResourceRecordSets svc (zId z) in
        pageWrites now z (pages answer) ticks ++
        match failure answer with
        | Some _ => []
        | None => zoneWrites now svc zs' (ticks + length (pages answer))
        end
      else zoneWrites now svc zs' ticks
  end.

Definition applyWrites (ws : list (string * Z)) (m : gmap string Z)
    : gmap string Z :=
  foldl (fun m w => <[w.1 := w.2]> m) m ws.

(** The set after a sequence of writes to [firstSeen]. *)
Definition withWrites (ws : list (string * Z)) (set : Set_) : Set_ :=
  mkSet (applyWrites ws (firstSeen set)) (ttl set).

(** The key [ListAll] records a record set of a zone under. *)
Definition keyOf (z : HostedZone) (r : ResourceRecordSet) : string :=
  ARN (mkR53 z r).

(** The keys of the record sets a zone's listing delivers. *)
Definition keysOf (svc : Route53) (z : HostedZone) : list string :=
  map (keyOf z) (recordsOf svc z).

(** The error of an inventory: the wrapped failure of the first record
    listing that fails, else the wrapped failure of the zone listing. *)
Definition inventoryError (opts : Options) (svc : Route53) : option error :=
  match firstFailure svc (zonesOf svc) with
  | Some (z, e) =>
      Some (Wrapped e
              "couldn't describe route53 resources for %q in %q zone %q"
              [Account opts; Region opts; aws_StringValue (zId z)])
  | None =>
      errors_Wrapf (failure (ListHostedZones svc))
        "couldn't describe route53 instance profiles for %q in %q"
        [Account opts; Region opts]
  end.

(** What the claim on dry runs asks of a trace, in its words: [Mark] was
    called on every managed record of every managed zone. *)
Definition marksEveryManagedRecord (svc : Route53) (trace : list event)
    : Prop :=
  forall z r,
    In z (zonesOf svc) -> managedZone z = true ->
    In r (recordsOf svc z) -> managedRecord r = true ->
    In (mkR53 z r) (marks trace).

(** A per-zone lister that does the enumeration of the source: it does
    not panic, reports the failure of the zone's record listing, asks for
    the record sets once, calls [Mark] on the managed ones in order and
    issues no change request.  Which candidates it returns is left open. *)
Definition enumerates (svc : Route53)
    (forZone : HostedZone -> Set_ ->
               outcome (list route53ResourceRecordSet * option error
                        * Set_ * list event)) : Prop :=
  forall z set, exists toDelete set' evs,
    forZone z set
      = Done (toDelete, failure (ListResourceRecordSets svc (zId z)),
              set', evs) /\
    marks evs = managedRecordsOf svc z /\
    requests evs = [] /\ listings evs = [zId z].

(** A per-zone lister that never returns a candidate. *)
Definition returnsNone
    (forZone : HostedZone -> Set_ ->
               outcome (list route53ResourceRecordSet * option error
                        * Set_ * list event)) : Prop :=
  forall z set toDelete err set' evs,
    forZone z set = Done (toDelete, err, set', evs) -> toDelete = [].

(** The sweeps that issue no change request: the dry runs, and those over
    a lister that returns no candidate. *)
Definition quiet
    (forZone : HostedZone -> Set_ ->
               outcome (list route53ResourceRecordSet * option error
                        * Set_ * list event))
    (opts : Options) : Prop :=
  DryRun opts = true \/ returnsNone forZone.

(** Two runs that went the same way, up to a relation on what they
    leave. *)
Definition sameOutcome {A : Type} (R : A -> A -> Prop)
    (o1 o2 : outcome A) : Prop :=
  match o1, o2 with
  | Done a1, Done a2 => R a1 a2
  | Panic, Panic => True
  | _, _ => False
  end.

(** Two states of the sweep that differ at most in how the change
    requests were answered. *)
Definition sameAttempts (st1 st2 : sweepState) : Prop :=
  let '(set1, trace1, listError1) := st1 in
  let '(set2, trace2, listError2) := st2 in
  set1 = set2 /\ attempts trace1 = attempts trace2 /\ listError1 = listError2.

(** Two iterations that gave the callback the same signal and left such
    states. *)
Definition sameStep (r1 r2 : bool * sweepState) : Prop :=
  fst r1 = fst r2 /\ sameAttempts (snd r1) (snd r2).

(** Two runs of the sweep that returned the same error, left the same
    set and attempted the same; in particular they issued the same change
    requests in the same order. *)
Definition sameRun (r1 r2 : option error * Set_ * list event) : Prop :=
  let '(err1, set1, trace1) := r1 in
  let '(err2, set2, trace2) := r2 in
  err1 = err2 /\ set1 = set2 /\ attempts trace1 = attempts trace2 /\
  requests trace1 = requests trace2.

(** ** Sample inputs *)

Definition sampleOptions (dryRun : bool) : Options :=
  mkOptions "account" "us-east-1" dryRun.

Definition managedZone1 : HostedZone :=
  mkZone (Some "Z1") (Some "test-cncf-aws.k8s.io.").

Definition managedZone2 : HostedZone :=
  mkZone (Some "Z2") (Some "test-cncf-aws.k8s.io.").

Definition foreignZone : HostedZone :=
  mkZone (Some "Z9") (Some "example.com.").

Definition apiRecord : ResourceRecordSet :=
  mkRRS (Some "api.e2e-71149fffac-dba53.test-cncf-aws.k8s.io.") (Some "A")
        ["10.0.0.1"].

Definition etcdRecord : ResourceRecordSet :=
  mkRRS (Some "etcd-b.internal.e2e-71149fffac-dba53.test-cncf-aws.k8s.io.")
        (Some "A") ["10.0.0.2"].

Definition wwwRecord : ResourceRecordSet :=
  mkRRS (Some "www.test-cncf-aws.k8s.io.") (Some "A") ["10.0.0.3"].

(** A tracker that finds every resource old enough to delete. *)
Definition markAlways (set : Set_) (o : route53ResourceRecordSet)
    (created : option Z) : bool * Set_ := (true, set).

Definition neverFails (n : nat) (req : ChangeResourceRecordSetsInput)
    : option error := None.

Definition managedZone3 : HostedZone :=
  mkZone (Some "Z3") (Some "test-cncf-aws.k8s.io.").

Definition throttled : error := AwsError "Throttling".

(** One managed zone with a managed and an unmanaged record. *)
Definition oneZoneProvider : Route53 :=
  mkRoute53 (mkPaged [[managedZone1]] None)
            (fun _ => mkPaged [[apiRecord; wwwRecord]] None)
            neverFails.

(** Four zones on two pages; the record listing of the zone with id Z2
    fails after its first page. *)
Definition failingProvider : Route53 :=
  mkRoute53
    (mkPaged [[foreignZone; managedZone1]; [managedZone2; managedZone3]] None)
    (fun id =>
       if decide (id = Some "Z2")
       then mkPaged [[apiRecord]] (Some throttled)
       else mkPaged [[apiRecord; wwwRecord]; [etcdRecord]] None)
    neverFails.

(** Three zones whose record listings all succeed. *)
Definition healthyProvider : Route53 :=
  mkRoute53
    (mkPaged [[foreignZone; managedZone1]; [managedZone3]] None)
    (fun id =>
       if decide (id = Some "Z9")
       then mkPaged [[apiRecord]] None
       else mkPaged [[apiRecord; wwwRecord]; [etcdRecord]] None)
    neverFails.

(** Two managed zones; the first holds 1200 managed records on two
    pages, the second one. *)
Definition bulkProvider : Route53 :=
  mkRoute53
    (mkPaged [[managedZone1; managedZone3]] None)
    (fun id =>
       if decide (id = Some "Z1")
       then mkPaged [repeat apiRecord 600; repeat etcdRecord 600] None
       else mkPaged [[apiRecord]] None)
    neverFails.

(** The first change request of the run fails. *)
Definition failsFirst (n : nat) (req : ChangeResourceRecordSetsInput)
    : option error :=
  match n with
  | 0 => Some throttled
  | S _ => None
  end.

(** A managed zone that came without an id, and a provider that delivers
    it; its record listing fails. *)
Definition zoneWithoutId : HostedZone :=
  mkZone None (Some "test-cncf-aws.k8s.io.").

Definition providerOfZoneWithoutId : Route53 :=
  mkRoute53 (mkPaged [[managedZone1; zoneWithoutId]] None)
            (fun id =>
               match id with
               | Some _ => mkPaged [[apiRecord]] None
               | None => mkPaged [] (Some (AwsError "InvalidParameter"))
               end)
            neverFails.

(** ** What the further properties are stated with *)

(** The set after [Mark] has been called on the resources in turn. *)
Definition markAll
    (Mark : Set_ -> route53ResourceRecordSet -> option Z -> bool * Set_)
    (set : Set_) (os : list route53ResourceRecordSet) : Set_ :=
  foldl (fun set o => snd (Mark set o None)) set os.

(** The resources [Mark] answers true for, when it is called on them in
    turn, each call on the set the one before left. *)
Fixpoint accepted
    (Mark : Set_ -> route53ResourceRecordSet -> option Z -> bool * Set_)
    (set : Set_) (os : list route53ResourceRecordSet)
    : list route53ResourceRecordSet :=
  match os with
  | [] => []
  | o :: os' =>
      (if fst (Mark set o None) then [o] else [])
      ++ accepted Mark (snd (Mark set o None)) os'
  end.

(** The "deleting" warnings of a trace: the identity and the name each one
    prints. *)
Definition deletingOf (e : event) : option (string * string) :=
  match e with
  | Log Warning (MsgDeleting arn name) => Some (arn, name)
  | _ => None
  end.

Definition deletings (trace : list event) : list (string * string) :=
  omap deletingOf trace.

(** What the warning for a resource prints. *)
Definition deletingLine (o : route53ResourceRecordSet) : string * string :=
  (ARN o, aws_StringValue (rName (obj o))).

(** What a stretch of trace holds, for the resources [os] marked from the
    set [set]. *)
Definition tells
    (Mark : Set_ -> route53ResourceRecordSet -> option Z -> bool * Set_)
    (set : Set_) (os : list route53ResourceRecordSet)
    (new : list event) : Prop :=
  marks new = os /\
  candidates new = accepted Mark set os /\
  deletings new = map deletingLine (accepted Mark set os) /\
  requests new = [] /\ listings new = [].

(** What a stretch of trace of a sweep holds, for the zones [zs] gone
    through from the set [set]. *)
Definition tellsZones
    (Mark : Set_ -> route53ResourceRecordSet -> option Z -> bool * Set_)
    (svc : Route53) (set : Set_) (zs : list HostedZone)
    (new : list event) : Prop :=
  let os := flat_map (managedRecordsOf svc) zs in
  marks new = os /\
  candidates new = accepted Mark set os /\
  deletings new = map deletingLine (accepted Mark set os) /\
  requests new = [] /\ listings new = map zId zs.

(** Two providers that deliver the same zones and, for every zone id, the
    same record sets and the same failures, whatever the pages they come
    on. *)
Definition sameListings (svc svc' : Route53) : Prop :=
  zonesOf svc = zonesOf svc' /\
  failure (ListHostedZones svc) = failure (ListHostedZones svc') /\
  forall id,
    concat (pages (ListResourceRecordSets svc id))
    = concat (pages (ListResourceRecordSets svc' id)) /\
    failure (ListResourceRecordSets svc id)
    = failure (ListResourceRecordSets svc' id).

(** A change request for a managed zone the provider delivers, whose
    record listing succeeded, and within the limit. *)
Definition requestForManagedZone (svc : Route53) (zs : list HostedZone)
    (req : ChangeResourceRecordSetsInput) : Prop :=
  exists z,
    In z zs /\ managedZone z = true /\
    failure (ListResourceRecordSets svc (zId z)) = None /\
    wellFormedRequest z req.

(** Strings without a colon. *)
Fixpoint noColon (s : string) : bool :=
  match s with
  | EmptyString => true
  | String c s' => negb (Ascii.eqb c ":") && noColon s'
  end.

(** The three parts of the identity of a resource, as [ARN] reads them. *)
Definition idOf (o : route53ResourceRecordSet) : string :=
  aws_StringValue (zId (zone o)).

Definition typeOf (o : route53ResourceRecordSet) : string :=
  aws_StringValue (rType (obj o)).

Definition nameOf (o : route53ResourceRecordSet) : string :=
  aws_StringValue (rName (obj o)).

(** The zone listing fails after its second page; the record listings
    succeed. *)
Definition zoneListingFails : Route53 :=
  mkRoute53
    (mkPaged [[foreignZone; managedZone1]; [managedZone3]] (Some throttled))
    (fun id =>
       if decide (id = Some "Z9")
       then mkPaged [[apiRecord]] None
       else mkPaged [[apiRecord; wwwRecord]; [etcdRecord]] None)
    neverFails.

(** [healthyProvider] with everything on one page. *)
Definition healthyProviderOnePage : Route53 :=
  mkRoute53
    (mkPaged [[foreignZone; managedZone1; managedZone3]] None)
    (fun id =>
       if decide (id = Some "Z9")
       then mkPaged [[apiRecord]] None
       else mkPaged [[apiRecord; wwwRecord; etcdRecord]] None)
    neverFails.

(** * Properties *)

Ltac close_run :=
  repeat split;
  try assumption; try reflexivity; try (intros _; assumption).

(** ** The matcher and the language of an expression *)

Lemma append_nil_l (s : string) : "" +:+ s = s.
Proof. reflexivity. Qed.

Lemma append_cons (c : ascii) (s1 s2 : string) :
  String c s1 +:+ s2 = String c (s1 +:+ s2).
Proof. reflexivity. Qed.

Lemma append_is_empty (s1 s2 : string) :
  s1 +:+ s2 = "" -> s1 = "" /\ s2 = "".
Proof.
  destruct s1; [rewrite append_nil_l; auto | rewrite append_cons; discriminate].
Qed.

Lemma matches_empty_nullable (r : regex) (s : string) :
  matches r s -> plainRepeats r = true -> s = "" -> nullable r = true.
Proof.
  induction 1 as [| c | lo hi c Hc | r1 r2 s H IH | r1 r2 s H IH
                  | r1 r2 s1 s2 H1 IH1 H2 IH2 | r max
                  | r min max s1 s2 H1 IH1 H2 IH2];
    cbn [plainRepeats nullable]; intros Hwf Hs;
    try reflexivity; try discriminate.
  - apply andb_true_iff in Hwf as [Hwf _]. rewrite IH by assumption.
    reflexivity.
  - apply andb_true_iff in Hwf as [_ Hwf]. rewrite IH by assumption.
    apply orb_true_r.
  - apply andb_true_iff in Hwf as [Hwf1 Hwf2].
    apply append_is_empty in Hs as [-> ->].
    rewrite IH1, IH2 by auto. reflexivity.
  - apply andb_true_iff in Hwf as [Hwf Hnot].
    apply append_is_empty in Hs as [-> _].
    rewrite IH1 in Hnot by auto. discriminate.
Qed.

Lemma nullable_matches (r : regex) :
  plainRepeats r = true -> nullable r = true -> matches r "".
Proof.
  induction r as [| | c | lo hi | r1 IH1 r2 IH2 | r1 IH1 r2 IH2 | r IH min max];
    cbn [plainRepeats nullable]; intros Hwf Hnull; try discriminate.
  - constructor.
  - apply andb_true_iff in Hwf as [Hwf1 Hwf2].
    apply orb_true_iff in Hnull as [Hnull | Hnull].
    + apply matches_alt_l. auto.
    + apply matches_alt_r. auto.
  - apply andb_true_iff in Hwf as [Hwf1 Hwf2].
    apply andb_true_iff in Hnull as [Hnull1 Hnull2].
    change "" with ("" +:+ ""). apply matches_cat; auto.
  - apply andb_true_iff in Hwf as [Hwf Hnot]. destruct min as [| min].
    + constructor.
    + rewrite Hnull in Hnot. discriminate.
Qed.

Lemma plainRepeats_deriv (c : ascii) (r : regex) :
  plainRepeats r = true -> plainRepeats (deriv c r) = true.
Proof.
  induction r as [| | d | lo hi | r1 IH1 r2 IH2 | r1 IH1 r2 IH2 | r IH min max];
    cbn [plainRepeats deriv]; intros Hwf; try reflexivity.
  - destruct (Ascii.eqb c d); reflexivity.
  - destruct (in_range lo hi c); reflexivity.
  - apply andb_true_iff in Hwf as [Hwf1 Hwf2]. rewrite IH1, IH2 by auto.
    reflexivity.
  - apply andb_true_iff in Hwf as [Hwf1 Hwf2].
    destruct (nullable r1); cbn [plainRepeats];
      rewrite IH1, ?IH2, Hwf2 by auto; reflexivity.
  - apply andb_true_iff in Hwf as [Hwf Hnot].
    destruct max as [| max]; [reflexivity |].
    cbn [plainRepeats]. rewrite IH, Hwf, Hnot by auto. reflexivity.
Qed.

(** The derivative matches what is left of a match after its first
    character. *)
Lemma deriv_matches (c : ascii) (r : regex) :
  plainRepeats r = true ->
  forall s, matches (deriv c r) s -> matches r (String c s).
Proof.
  induction r as [| | d | lo hi | r1 IH1 r2 IH2 | r1 IH1 r2 IH2 | r IH min max];
    cbn [plainRepeats deriv]; intros Hwf s Hm.
  - inversion Hm.
  - inversion Hm.
  - destruct (Ascii.eqb_spec c d) as [-> |]; inversion Hm. constructor.
  - destruct (in_range lo hi c) eqn:Hc; inversion Hm. constructor. exact Hc.
  - apply andb_true_iff in Hwf as [Hwf1 Hwf2].
    inversion Hm; subst; [apply matches_alt_l | apply matches_alt_r]; auto.
  - apply andb_true_iff in Hwf as [Hwf1 Hwf2].
    assert (Hcat : forall s, matches (ReCat (deriv c r1) r2) s ->
                             matches (ReCat r1 r2) (String c s)).
    { intros s0 H0. inversion H0; subst.
      change (String c (s1 +:+ s2)) with (String c s1 +:+ s2).
      apply matches_cat; auto. }
    destruct (nullable r1) eqn:Hnull; [| auto].
    inversion Hm; subst; [auto |].
    change (String c s) with ("" +:+ String c s).
    apply matches_cat; [apply nullable_matches; assumption | auto].
  - apply andb_true_iff in Hwf as [Hwf Hnot].
    destruct max as [| max]; [inversion Hm |].
    inversion Hm; subst.
    change (String c (s1 +:+ s2)) with (String c s1 +:+ s2).
    apply matches_rep_more; auto.
Qed.

Lemma matches_deriv (r : regex) (s0 : string) :
  matches r s0 -> plainRepeats r = true ->
  forall c s, s0 = String c s -> matches (deriv c r) s.
Proof.
  induction 1 as [| d | lo hi d Hd | r1 r2 s0 H IH | r1 r2 s0 H IH
                  | r1 r2 s1 s2 H1 IH1 H2 IH2 | r max
                  | r min max s1 s2 H1 IH1 H2 IH2];
    cbn [plainRepeats deriv]; intros Hwf c s Hs; try discriminate.
  - injection Hs as -> <-. rewrite Ascii.eqb_refl. constructor.
  - injection Hs as -> <-. rewrite Hd. constructor.
  - apply andb_true_iff in Hwf as [Hwf1 Hwf2]. apply matches_alt_l. eauto.
  - apply andb_true_iff in Hwf as [Hwf1 Hwf2]. apply matches_alt_r. eauto.
  - apply andb_true_iff in Hwf as [Hwf1 Hwf2].
    destruct s1 as [| c1 s1];
      rewrite ?append_nil_l, ?append_cons in Hs.
    + rewrite (matches_empty_nullable r1 "" H1 Hwf1 eq_refl).
      apply matches_alt_r. eauto.
    + injection Hs as -> <-.
      assert (Hcat : matches (ReCat (deriv c r1) r2) (s1 +:+ s2))
        by (apply matches_cat; eauto).
      destruct (nullable r1); [apply matches_alt_l |]; exact Hcat.
  - apply andb_true_iff in Hwf as [Hwf Hnot].
    destruct s1 as [| c1 s1];
      rewrite ?append_nil_l, ?append_cons in Hs.
    + rewrite (matches_empty_nullable r "" H1 Hwf eq_refl) in Hnot.
      discriminate.
    + injection Hs as -> <-. apply matches_cat; eauto.
Qed.

(** [MatchString] answers true exactly when a prefix of the string is in
    the language of the expression. *)
Lemma MatchString_prefix (s : string) :
  forall re,
    plainRepeats re = true ->
    (MatchString re s = true <-> exists p q, s = p +:+ q /\ matches re p).
Proof.
  induction s as [| c s IH]; intros re Hwf; cbn [MatchString].
  - rewrite orb_false_r. split.
    + intros Hnull. exists "", "". split; [reflexivity |].
      apply nullable_matches; assumption.
    + intros (p & q & Hs & Hm). symmetry in Hs.
      apply append_is_empty in Hs as [-> _].
      eapply matches_empty_nullable; eauto.
  - rewrite orb_true_iff, (IH _ (plainRepeats_deriv c re Hwf)). split.
    + intros [Hnull | (p & q & -> & Hm)].
      * exists "", (String c s). split; [reflexivity |].
        apply nullable_matches; assumption.
      * exists (String c p), q. split; [reflexivity |].
        apply deriv_matches; assumption.
    + intros (p & q & Hs & Hm).
      destruct p as [| c' p]; rewrite ?append_nil_l, ?append_cons in Hs.
      * left. eapply matches_empty_nullable; eauto.
      * injection Hs as <- ->. right. exists p, q. split; [reflexivity |].
        eapply matches_deriv; eauto.
Qed.

(** The expressions of the source repeat character classes only. *)
Lemma managedNameRegexes_plainRepeats :
  forallb plainRepeats managedNameRegexes = true.
Proof. reflexivity. Qed.

(** A record set is managed exactly when its type is "A" and a prefix of
    its name is in the language of one of the expressions. *)
Lemma managedRecord_iff (rrs : ResourceRecordSet) :
  managedRecord rrs = true <->
  aws_StringValue (rType rrs) = "A" /\
  exists re p q,
    In re managedNameRegexes /\
    aws_StringValue (rName rrs) = p +:+ q /\ matches re p.
Proof.
  unfold managedRecord, resourceRecordSetIsManaged.
  destruct (String.eqb_spec "A" (aws_StringValue (rType rrs))) as [E | E];
    cbn [negb].
  - destruct (existsb _ managedNameRegexes) eqn:Hex; cbn [fst].
    + split; [intros _ | reflexivity]. split; [congruence |].
      apply existsb_exists in Hex as (re & Hin & Hm).
      apply MatchString_prefix in Hm as (p & q & Hs & Hm).
      * exists re, p, q. auto.
      * pose proof managedNameRegexes_plainRepeats as Hall.
        rewrite forallb_forall in Hall. auto.
    + split; [discriminate |]. intros (_ & re & p & q & Hin & Hs & Hm).
      assert (Hex' : existsb
                       (fun re => MatchString re (aws_StringValue (rName rrs)))
                       managedNameRegexes = true).
      { apply existsb_exists. exists re. split; [exact Hin |].
        apply MatchString_prefix.
        - pose proof managedNameRegexes_plainRepeats as Hall.
          rewrite forallb_forall in Hall. auto.
        - exists p, q. auto. }
      congruence.
  - cbn [fst]. split; [discriminate | intros [Hty _]; congruence].
Qed.

(** ** The filters and the resource identity *)

Lemma managedZone_name z :
  managedZone z = true <-> aws_StringValue (zName z) = "test-cncf-aws.k8s.io.".
Proof.
  unfold managedZone, zoneIsManaged.
  destruct (String.eqb_spec "test-cncf-aws.k8s.io." (aws_StringValue (zName z)))
    as [E | E]; simpl; split; intros H; congruence.
Qed.

(** C6: [zoneIsManaged] answers true exactly for the zones whose name is the
    allow-listed domain "test-cncf-aws.k8s.io.", read through
    [aws.StringValue]; that is, exactly when the name pointer is set and
    holds that string. *)
Theorem zoneIsManaged_iff_allow_listed (z : HostedZone) :
  (fst (zoneIsManaged z) = true <->
   aws_StringValue (zName z) = "test-cncf-aws.k8s.io.") /\
  (fst (zoneIsManaged z) = true <-> zName z = Some "test-cncf-aws.k8s.io.").
Proof.
  split; [apply managedZone_name |].
  rewrite (managedZone_name z : fst (zoneIsManaged z) = true <-> _).
  destruct (zName z) as [n |]; simpl; split; intros H;
    try discriminate; congruence.
Qed.

Lemma zoneIsManaged_iff_allow_listed_witness :
  fst (zoneIsManaged (mkZone (Some "Z1") (Some "test-cncf-aws.k8s.io."))) = true
  /\ fst (zoneIsManaged (mkZone (Some "Z2") (Some "Test-cncf-aws.k8s.io."))) <> true
  /\ fst (zoneIsManaged (mkZone (Some "Z3") None)) <> true.
Proof.
  split; [| split].
  - apply (proj2 (zoneIsManaged_iff_allow_listed _)). reflexivity.
  - intros H.
    apply (proj1 (proj2 (zoneIsManaged_iff_allow_listed _))) in H.
    discriminate H.
  - intros H.
    apply (proj1 (proj2 (zoneIsManaged_iff_allow_listed _))) in H.
    discriminate H.
Defined.

(** C7: a record set whose type is not "A" is never managed (and nothing is
    logged for it); for records of type "A" the four names of the spec are
    classified as it says, whatever the rest of the record holds. *)
Theorem resourceRecordSetIsManaged_classifies :
  (forall rrs : ResourceRecordSet,
     aws_StringValue (rType rrs) <> "A" ->
     resourceRecordSetIsManaged rrs = (false, [])) /\
  (forall rest,
     fst (resourceRecordSetIsManaged
            (mkRRS (Some "api.e2e-71149fffac-dba53.test-cncf-aws.k8s.io.")
                   (Some "A") rest)) = true) /\
  (forall rest,
     fst (resourceRecordSetIsManaged
            (mkRRS (Some "api.unrelated.example.com.") (Some "A") rest))
     = false) /\
  (forall rest,
     fst (resourceRecordSetIsManaged
            (mkRRS
               (Some "etcd-b.internal.e2e-71149fffac-dba53.test-cncf-aws.k8s.io.")
               (Some "A") rest)) = true) /\
  (forall rest,
     fst (resourceRecordSetIsManaged
            (mkRRS (Some "www.test-cncf-aws.k8s.io.") (Some "A") rest))
     = false).
Proof.
  split.
  - intros rrs Hty. unfold resourceRecordSetIsManaged.
    destruct (String.eqb_spec "A" (aws_StringValue (rType rrs))) as [E | E].
    + congruence.
    + reflexivity.
  - repeat split; intros rest; vm_compute; reflexivity.
Qed.

Lemma resourceRecordSetIsManaged_classifies_witness :
  resourceRecordSetIsManaged
    (mkRRS (Some "api.e2e-71149fffac-dba53.test-cncf-aws.k8s.io.")
           (Some "CNAME") ["10.0.0.1"]) = (false, []) /\
  resourceRecordSetIsManaged
    (mkRRS (Some "api.e2e-71149fffac-dba53.test-cncf-aws.k8s.io.") None [])
  = (false, []).
Proof.
  split; apply (proj1 resourceRecordSetIsManaged_classifies);
    simpl; discriminate.
Defined.

(** C8: the identity of a record set is "route53", "::", the zone id, "::",
    the record type, "::", the record name, concatenated in that order, and
    [ResourceKey] is the same string. *)
Theorem ARN_is_provider_zone_type_name (z : HostedZone)
    (r : ResourceRecordSet) :
  ARN (mkR53 z r) =
    "route53" +:+ "::" +:+ aws_StringValue (zId z) +:+ "::" +:+
    aws_StringValue (rType r) +:+ "::" +:+ aws_StringValue (rName r) /\
  ResourceKey (mkR53 z r) = ARN (mkR53 z r) /\
  (forall id ty name,
     zId z = Some id -> rType r = Some ty -> rName r = Some name ->
     ResourceKey (mkR53 z r) =
       "route53" +:+ "::" +:+ id +:+ "::" +:+ ty +:+ "::" +:+ name).
Proof.
  split; [reflexivity |]. split; [reflexivity |].
  intros id ty name Hid Hty Hname.
  unfold ResourceKey, ARN. simpl. rewrite Hid, Hty, Hname. reflexivity.
Qed.

Lemma ARN_is_provider_zone_type_name_witness :
  ResourceKey
    (mkR53 (mkZone (Some "Z2ABC") (Some "test-cncf-aws.k8s.io."))
           (mkRRS (Some "api.e2e-71149fffac-dba53.test-cncf-aws.k8s.io.")
                  (Some "A") []))
  = "route53::Z2ABC::A::api.e2e-71149fffac-dba53.test-cncf-aws.k8s.io.".
Proof.
  exact (proj2 (proj2 (ARN_is_provider_zone_type_name
                         (mkZone (Some "Z2ABC") (Some "test-cncf-aws.k8s.io."))
                         (mkRRS
                            (Some "api.e2e-71149fffac-dba53.test-cncf-aws.k8s.io.")
                            (Some "A") [])))
           "Z2ABC" "A" "api.e2e-71149fffac-dba53.test-cncf-aws.k8s.io."
           eq_refl eq_refl eq_refl).
Defined.

(** A managed record has a name: no expression of [managedNameRegexes]
    accepts the empty string, which is what a [nil] name reads as. *)
Lemma managedRecord_has_name (rrs : ResourceRecordSet) :
  managedRecord rrs = true -> exists name, rName rrs = Some name.
Proof.
  unfold managedRecord, resourceRecordSetIsManaged.
  destruct (negb (String.eqb "A" (aws_StringValue (rType rrs)))).
  - simpl. discriminate.
  - destruct (rName rrs) as [name |].
    + intros _. exists name. reflexivity.
    + vm_compute. discriminate.
Qed.

Lemma managedRecord_false_log (rrs : ResourceRecordSet) :
  managedRecord rrs = true -> snd (resourceRecordSetIsManaged rrs) = [].
Proof.
  unfold managedRecord, resourceRecordSetIsManaged.
  destruct (negb _); [reflexivity |].
  destruct (existsb _ _); [reflexivity | discriminate].
Qed.

(** ** Projections of a trace *)

Lemma requests_app (t1 t2 : list event) :
  requests (t1 ++ t2) = requests t1 ++ requests t2.
Proof. apply omap_app. Qed.

Lemma marks_app (t1 t2 : list event) : marks (t1 ++ t2) = marks t1 ++ marks t2.
Proof. apply omap_app. Qed.

Lemma listings_app (t1 t2 : list event) :
  listings (t1 ++ t2) = listings t1 ++ listings t2.
Proof. apply omap_app. Qed.

Lemma zoneIsManaged_onlyLogs z : onlyLogs (snd (zoneIsManaged z)).
Proof.
  unfold zoneIsManaged. destruct (String.eqb _ _); repeat split.
Qed.

Lemma resourceRecordSetIsManaged_onlyLogs rrs :
  onlyLogs (snd (resourceRecordSetIsManaged rrs)).
Proof.
  unfold resourceRecordSetIsManaged.
  destruct (negb _); [repeat split |].
  destruct (existsb _ _); repeat split.
Qed.

(** ** Pagination *)

(** Handing the pages to a callback that loops over each page is looping
    over all the delivered elements, until the loop body stops it. *)
Lemma eachPage_forEach {A S : Type} (body : A -> S -> outcome (bool * S))
    (ps : list (list A)) (err : option error) (s : S) :
  eachPage (forEach body) ps err s =
  match forEach body (concat ps) s with
  | Done (true, s') => Done (err, s')
  | Done (false, s') => Done (None, s')
  | Panic => Panic
  end.
Proof.
  revert s. induction ps as [| p ps IH]; intros s; [reflexivity |].
  simpl. revert s. induction p as [| x p IHp]; intros s.
  - simpl. apply IH.
  - simpl. destruct (body x s) as [[[] s'] |]; simpl; auto.
Qed.

Lemma forEach_app {A S : Type} (body : A -> S -> outcome (bool * S))
    (l1 l2 : list A) (s : S) :
  forEach body (l1 ++ l2) s =
  match forEach body l1 s with
  | Done (true, s') => forEach body l2 s'
  | Done (false, s') => Done (false, s')
  | Panic => Panic
  end.
Proof.
  revert s. induction l1 as [| x l1 IH]; intros s; [reflexivity |].
  simpl. destruct (body x s) as [[[] s'] |]; simpl; auto.
Qed.

Lemma eachPage_ext {A S : Type} (fn fn' : list A -> S -> outcome (bool * S))
    (ps : list (list A)) (err : option error) (s : S) :
  (forall p s, fn p s = fn' p s) ->
  eachPage fn ps err s = eachPage fn' ps err s.
Proof.
  intros Hfn. revert s. induction ps as [| p ps IH]; intros s; [reflexivity |].
  simpl. rewrite Hfn. destruct (fn' p s) as [[[] s'] |]; simpl; auto.
Qed.

(** ** The per-zone lister *)

Section ListerFacts.

Variable Mark :
  Set_ -> route53ResourceRecordSet -> option Z -> bool * Set_.

Lemma recordsBody_run (z : HostedZone) (rrs : ResourceRecordSet)
    (set : Set_) (evs : list event)
    (toDelete : list route53ResourceRecordSet) :
  exists set' new,
    recordsBody Mark z rrs (set, evs, toDelete)
      = Done (true, (set', evs ++ new, toDelete)) /\
    marks new = (if managedRecord rrs then [mkR53 z rrs] else []) /\
    requests new = [] /\ listings new = [].
Proof.
  unfold recordsBody.
  pose proof (resourceRecordSetIsManaged_onlyLogs rrs) as (Hr & Hm & Hl).
  pose proof (managedRecord_has_name rrs) as Hname.
  unfold managedRecord in *.
  destruct (resourceRecordSetIsManaged rrs) as [managed logs].
  simpl in *. destruct managed; simpl.
  - destruct (Mark set (mkR53 z rrs) None) as [old set'].
    destruct Hname as [name Hname]; [reflexivity |].
    destruct old.
    + rewrite Hname. simpl.
      exists set',
        (logs ++ [Marked (mkR53 z rrs) true]
              ++ [Log Warning (MsgDeleting (ARN (mkR53 z rrs)) name)]).
      rewrite !app_assoc. split; [reflexivity |].
      rewrite !marks_app, !requests_app, !listings_app, Hr, Hm, Hl.
      repeat split.
    + exists set', (logs ++ [Marked (mkR53 z rrs) false]).
      rewrite !app_assoc. split; [reflexivity |].
      rewrite !marks_app, !requests_app, !listings_app, Hr, Hm, Hl.
      repeat split.
  - exists set, logs. repeat split; assumption.
Qed.

Lemma recordsLoop_run (z : HostedZone) (rs : list ResourceRecordSet)
    (set : Set_) (evs : list event)
    (toDelete : list route53ResourceRecordSet) :
  exists set' new,
    forEach (recordsBody Mark z) rs (set, evs, toDelete)
      = Done (true, (set', evs ++ new, toDelete)) /\
    marks new = map (mkR53 z) (List.filter managedRecord rs) /\
    requests new = [] /\ listings new = [].
Proof.
  revert set evs. induction rs as [| rrs rs IH]; intros set evs.
  - exists set, []. rewrite app_nil_r. repeat split.
  - destruct (recordsBody_run z rrs set evs toDelete)
      as (set1 & new1 & Hrun & Hm1 & Hr1 & Hl1).
    destruct (IH set1 (evs ++ new1)) as (set2 & new2 & Hrest & Hm2 & Hr2 & Hl2).
    exists set2, (new1 ++ new2).
    cbn [forEach]. rewrite Hrun. simpl. rewrite Hrest, app_assoc.
    split; [reflexivity |].
    rewrite marks_app, requests_app, listings_app, Hm1, Hm2, Hr1, Hr2, Hl1, Hl2.
    repeat split. destruct (managedRecord rrs); reflexivity.
Qed.

Lemma recordsPageFunc_run (z : HostedZone) (rs : list ResourceRecordSet)
    (set : Set_) (evs : list event)
    (toDelete : list route53ResourceRecordSet) :
  exists set' new,
    recordsPageFunc Mark z rs (set, evs, toDelete)
      = Done (true, (set', evs ++ new, toDelete)) /\
    marks new = map (mkR53 z) (List.filter managedRecord rs) /\
    requests new = [] /\ listings new = [].
Proof.
  destruct (recordsLoop_run z rs set evs toDelete) as (set' & new & Hrun & H).
  exists set', new. split; [| exact H].
  unfold recordsPageFunc. rewrite Hrun. reflexivity.
Qed.

Lemma recordsPages_run (z : HostedZone) (ps : list (list ResourceRecordSet))
    (err : option error) (set : Set_) (evs : list event)
    (toDelete : list route53ResourceRecordSet) :
  exists set' new,
    eachPage (recordsPageFunc Mark z) ps err (set, evs, toDelete)
      = Done (err, (set', evs ++ new, toDelete)) /\
    marks new = map (mkR53 z) (List.filter managedRecord (concat ps)) /\
    requests new = [] /\ listings new = [].
Proof.
  revert set evs. induction ps as [| p ps IH]; intros set evs.
  - exists set, []. rewrite app_nil_r. repeat split.
  - destruct (recordsPageFunc_run z p set evs toDelete)
      as (set1 & new1 & Hrun & Hm1 & Hr1 & Hl1).
    destruct (IH set1 (evs ++ new1)) as (set2 & new2 & Hrest & Hm2 & Hr2 & Hl2).
    exists set2, (new1 ++ new2).
    cbn [eachPage]. rewrite Hrun. simpl.
    rewrite Hrest, app_assoc. split; [reflexivity |].
    rewrite marks_app, requests_app, listings_app, Hm1, Hm2, Hr1, Hr2, Hl1, Hl2.
    rewrite List.filter_app, map_app. repeat split.
Qed.

(** What the lister of the source does on a zone: it never panics, it asks
    for the zone's record sets once, calls [Mark] on the managed ones in
    order, issues no request, reports the listing's failure, and the slice
    it returns is empty. *)
Lemma route53ResourceRecordSetsForZone_run (svc : Route53) (z : HostedZone)
    (set : Set_) :
  exists set' evs,
    route53ResourceRecordSetsForZone Mark svc z set
      = Done ([], failure (ListResourceRecordSets svc (zId z)), set', evs) /\
    marks evs = managedRecordsOf svc z /\
    requests evs = [] /\ listings evs = [zId z].
Proof.
  unfold route53ResourceRecordSetsForZone, listPages.
  destruct (recordsPages_run z (pages (ListResourceRecordSets svc (zId z)))
              (failure (ListResourceRecordSets svc (zId z)))
              set [ListRecords (zId z)] [])
    as (set' & new & Hrun & Hm & Hr & Hl).
  exists set', ([ListRecords (zId z)] ++ new).
  split.
  - rewrite Hrun. simpl. destruct (failure _); reflexivity.
  - rewrite marks_app, requests_app, listings_app, Hm, Hr, Hl.
    repeat split.
Qed.

End ListerFacts.

(** ** The chunked deletion *)

Lemma ceilDiv_zero : ceilDiv 0 changeLimit = 0.
Proof. vm_compute. reflexivity. Qed.

Lemma ceilDiv_one_chunk (n : nat) :
  0 < n -> n <= changeLimit -> ceilDiv n changeLimit = 1.
Proof.
  unfold ceilDiv, changeLimit. intros Hpos Hle.
  symmetry. apply (Nat.div_unique _ _ _ (n - 1)); lia.
Qed.

Lemma ceilDiv_next_chunk (n : nat) :
  changeLimit < n ->
  ceilDiv n changeLimit = S (ceilDiv (n - changeLimit) changeLimit).
Proof.
  unfold ceilDiv, changeLimit. intros Hlt.
  replace (n + 1000 - 1) with ((n - 1000 + 1000 - 1) + 1 * 1000) by lia.
  rewrite Nat.div_add by lia. lia.
Qed.

(** The loop of [MarkAndSweep] over [changes], given at least
    [length changes] iterations of fuel: it appends to the trace, the
    requests it issues are for the zone, within the limit, as many as the
    rounded-up quotient says, and together they carry [changes], each item
    once and in order. *)
Lemma deleteChunks_run (svc : Route53) (z : HostedZone) (fuel : nat) :
  forall (changes : list Change) (trace : list event),
    length changes <= fuel ->
    exists new,
      deleteChunks fuel svc z changes trace = trace ++ new /\
      marks new = [] /\ listings new = [] /\
      length (requests new) = ceilDiv (length changes) changeLimit /\
      Forall (wellFormedRequest z) (requests new) /\
      concat (map Changes (requests new)) = changes.
Proof.
  induction fuel as [| fuel IH]; intros changes trace Hfuel.
  - destruct changes as [| c l]; [| simpl in Hfuel; lia].
    exists []. rewrite app_nil_r. repeat split; constructor.
  - destruct changes as [| c l].
    + exists []. rewrite app_nil_r. repeat split; constructor.
    + cbn [deleteChunks]. set (changes := c :: l) in *.
      assert (Hpos : 0 < length changes) by (subst changes; simpl; lia).
      destruct (Nat.ltb_spec changeLimit (length changes)) as [Hbig | Hsmall].
      * set (chunk := take changeLimit changes).
        set (rest := drop changeLimit changes).
        set (req := mkChangeInput (zId z) chunk).
        set (t1 := trace ++ [Log Info (MsgDeletingRecords (length chunk))]).
        set (res := ChangeResourceRecordSets svc (length (requests t1)) req).
        set (tail := match res with
                     | Some e => [Log Warning (MsgUnableToDelete e)]
                     | None => []
                     end).
        assert (Hlen : length chunk = changeLimit)
          by (subst chunk; rewrite length_take; lia).
        assert (Hrest : length rest = length changes - changeLimit)
          by (subst rest; apply length_drop).
        destruct (IH rest ((t1 ++ [ChangeRequest req res]) ++ tail))
          as (new & Hrun & Hm & Hl & Hn & Hwf & Hall).
        { unfold changeLimit in *. lia. }
        exists ([Log Info (MsgDeletingRecords (length chunk))]
                  ++ [ChangeRequest req res] ++ tail ++ new).
        split.
        { replace (match res with
                   | Some e =>
                       (t1 ++ [ChangeRequest req res])
                         ++ [Log Warning (MsgUnableToDelete e)]
                   | None => t1 ++ [ChangeRequest req res]
                   end)
            with ((t1 ++ [ChangeRequest req res]) ++ tail)
            by (subst tail; destruct res; [reflexivity | apply app_nil_r]).
          rewrite Hrun. subst t1. rewrite <- !app_assoc. reflexivity. }
        assert (Htail : marks tail = [] /\ listings tail = []
                        /\ requests tail = [])
          by (subst tail; destruct res; repeat split).
        destruct Htail as (Htm & Htl & Htr).
        rewrite !marks_app, !listings_app, !requests_app, Htm, Htl, Htr, Hm, Hl.
        change (requests [Log Info (MsgDeletingRecords (length chunk))])
          with (@nil ChangeResourceRecordSetsInput).
        change (requests [ChangeRequest req res]) with [req].
        cbn [app length map concat].
        repeat split.
        -- rewrite Hn, Hrest. symmetry. apply ceilDiv_next_chunk, Hbig.
        -- constructor; [| exact Hwf].
           unfold wellFormedRequest. cbn [HostedZoneId Changes req].
           rewrite Hlen. unfold changeLimit. repeat split; lia.
        -- rewrite Hall. subst chunk rest. apply take_drop.
      * set (req := mkChangeInput (zId z) changes).
        set (t1 := trace ++ [Log Info (MsgDeletingRecords (length changes))]).
        set (res := ChangeResourceRecordSets svc (length (requests t1)) req).
        set (tail := match res with
                     | Some e => [Log Warning (MsgUnableToDelete e)]
                     | None => []
                     end).
        exists ([Log Info (MsgDeletingRecords (length changes))]
                  ++ [ChangeRequest req res] ++ tail).
        split.
        { replace (match res with
                   | Some e =>
                       (t1 ++ [ChangeRequest req res])
                         ++ [Log Warning (MsgUnableToDelete e)]
                   | None => t1 ++ [ChangeRequest req res]
                   end)
            with ((t1 ++ [ChangeRequest req res]) ++ tail)
            by (subst tail; destruct res; [reflexivity | apply app_nil_r]).
          destruct fuel; subst t1; rewrite <- !app_assoc; reflexivity. }
        assert (Htail : marks tail = [] /\ listings tail = []
                        /\ requests tail = [])
          by (subst tail; destruct res; repeat split).
        destruct Htail as (Htm & Htl & Htr).
        rewrite !marks_app, !listings_app, !requests_app, Htm, Htl, Htr.
        change (requests [Log Info (MsgDeletingRecords (length changes))])
          with (@nil ChangeResourceRecordSetsInput).
        change (requests [ChangeRequest req res]) with [req].
        cbn [app length map concat].
        repeat split.
        -- symmetry. apply ceilDiv_one_chunk; assumption.
        -- constructor; [| constructor].
           unfold wellFormedRequest. cbn [HostedZoneId Changes req].
           repeat split; assumption.
        -- apply app_nil_r.
Qed.

Lemma managedZone_no_log (z : HostedZone) :
  managedZone z = true -> zoneIsManaged z = (true, []).
Proof.
  unfold managedZone, zoneIsManaged.
  destruct (String.eqb _ _); [reflexivity | discriminate].
Qed.

Lemma changes_carried (reqs : list ChangeResourceRecordSetsInput) :
  list_sum (map (fun req => length (Changes req)) reqs)
  = length (concat (map Changes reqs)).
Proof.
  induction reqs as [| req reqs IH]; [reflexivity |].
  cbn [map concat]. rewrite length_app, <- IH. reflexivity.
Qed.

(** X12: the chunking of the sweep is right for any list it is handed:
    when the sweep is not a dry run and the lister returns N candidates
    for a managed zone, the zone's iteration issues ceil(N/1000) change
    requests, each for that zone and with at most 1000 changes, and
    together they carry the N deletions, each candidate once and in
    order. *)
Lemma sweep_deletes_in_chunks_of_1000
    (forZone : HostedZone -> Set_ ->
               outcome (list route53ResourceRecordSet * option error
                        * Set_ * list event))
    (opts : Options) (svc : Route53) (z : HostedZone) (set : Set_)
    (trace : list event) (listError : option error)
    (toDelete : list route53ResourceRecordSet) (set' : Set_)
    (evs : list event) :
  DryRun opts = false ->
  fst (zoneIsManaged z) = true ->
  forZone z set = Done (toDelete, None, set', evs) ->
  exists new,
    zonesBody forZone opts svc z (set, trace, listError)
      = Done (true, (set', trace ++ evs ++ new, listError)) /\
    length (requests new) = ceilDiv (length toDelete) 1000 /\
    Forall (fun req => HostedZoneId req = zId z /\
                       length (Changes req) <= 1000) (requests new) /\
    list_sum (map (fun req => length (Changes req)) (requests new))
      = length toDelete /\
    concat (map Changes (requests new))
      = map (fun rrs => mkChange ChangeActionDelete (obj rrs)) toDelete.
Proof.
  intros Hwet Hmanaged Hlist.
  set (changes := map (fun rrs => mkChange ChangeActionDelete (obj rrs))
                      toDelete).
  destruct (deleteChunks_run svc z (length changes) changes (trace ++ evs))
    as (new & Hrun & _ & _ & Hn & Hwf & Hall); [lia |].
  exists new. split.
  - unfold zonesBody. rewrite (managedZone_no_log z Hmanaged).
    cbn [negb]. rewrite app_nil_r, Hlist. cbn [mbind outcome_bind].
    rewrite Hwet. fold changes. rewrite Hrun, app_assoc. reflexivity.
  - split; [| split; [| split]].
    + rewrite Hn. subst changes. rewrite length_map. reflexivity.
    + eapply Forall_impl; [exact Hwf |].
      intros req (Hid & _ & Hle). split; assumption.
    + rewrite changes_carried, Hall. subst changes. apply length_map.
    + exact Hall.
Qed.

Lemma sweep_deletes_in_chunks_of_1000_at_2001 :
  exists new,
    zonesBody
      (fun _ set =>
         Done (repeat (mkR53 managedZone1 apiRecord) 2001, None, set, []))
      (sampleOptions false)
      (mkRoute53 (mkPaged [[managedZone1]] None)
                 (fun _ => mkPaged [] None) neverFails)
      managedZone1 (NewSet 0, [], None)
    = Done (true, (NewSet 0, [] ++ [] ++ new, None)) /\
    length (requests new) = 3 /\
    list_sum (map (fun req => length (Changes req)) (requests new)) = 2001.
Proof.
  destruct (sweep_deletes_in_chunks_of_1000
              (fun _ set =>
                 Done (repeat (mkR53 managedZone1 apiRecord) 2001,
                       None, set, []))
              (sampleOptions false)
              (mkRoute53 (mkPaged [[managedZone1]] None)
                         (fun _ => mkPaged [] None) neverFails)
              managedZone1 (NewSet 0) [] None
              (repeat (mkR53 managedZone1 apiRecord) 2001) (NewSet 0) []
              eq_refl eq_refl eq_refl)
    as (new & Hrun & Hn & _ & Hsum & _).
  exists new. split; [exact Hrun |]. split.
  - rewrite Hn. vm_compute. reflexivity.
  - rewrite Hsum. apply repeat_length.
Defined.

(** ** The sweep over a lister that enumerates *)

Lemma firstFailure_none_reached (svc : Route53) (zs : list HostedZone) :
  firstFailure svc zs = None -> reached svc zs = List.filter managedZone zs.
Proof.
  induction zs as [| z zs IH]; [reflexivity |].
  cbn [firstFailure reached List.filter].
  destruct (managedZone z); [| exact IH].
  destruct (failure (ListResourceRecordSets svc (zId z))); [discriminate |].
  intros H. rewrite (IH H). reflexivity.
Qed.

Section SweepFacts.

Variable forZone :
  HostedZone -> Set_ ->
  outcome (list route53ResourceRecordSet * option error * Set_ * list event).
Variable opts : Options.
Variable svc : Route53.
Hypothesis Henum : enumerates svc forZone.

Lemma zonesBody_run (z : HostedZone) (set : Set_) (trace : list event)
    (listError : option error) :
  exists set' new,
    zonesBody forZone opts svc z (set, trace, listError)
      = Done (match firstFailure svc [z] with Some _ => false | None => true end,
              (set', trace ++ new,
               match firstFailure svc [z] with
               | Some (_, e) => Some e
               | None => listError
               end)) /\
    marks new = flat_map (managedRecordsOf svc) (reached svc [z]) /\
    listings new = map zId (reached svc [z]) /\
    (quiet forZone opts -> requests new = []).
Proof.
  unfold zonesBody. cbn [firstFailure reached].
  pose proof (zoneIsManaged_onlyLogs z) as (Hlr & Hlm & Hll).
  pose proof (managedZone_no_log z) as Hnolog.
  unfold managedZone in *.
  destruct (zoneIsManaged z) as [managed logs]. cbn [fst snd] in *.
  destruct managed; cbn [negb].
  - specialize (Hnolog eq_refl). injection Hnolog as ->.
    rewrite app_nil_r.
    destruct (Henum z set) as (toDelete & set' & evs & Hrun & Hm & Hr & Hl).
    rewrite Hrun. cbn [mbind outcome_bind].
    destruct (failure (ListResourceRecordSets svc (zId z))) as [e |].
    + exists set', evs. cbn [flat_map map]. rewrite app_nil_r.
      close_run.
    + destruct (DryRun opts) eqn:Hdry.
      * exists set', evs. cbn [flat_map map]. rewrite app_nil_r.
        close_run.
      * set (changes := map (fun rrs => mkChange ChangeActionDelete (obj rrs))
                            toDelete).
        destruct (deleteChunks_run svc z (length changes) changes
                    (trace ++ evs))
          as (new & Hdel & Hdm & Hdl & Hdn & _ & _); [lia |].
        exists set', (evs ++ new). rewrite Hdel, app_assoc.
        split; [reflexivity |].
        rewrite marks_app, listings_app, requests_app, Hm, Hl, Hr, Hdm, Hdl.
        cbn [flat_map map]. rewrite !app_nil_r.
        close_run.
        intros [Hq | Hq]; [congruence |].
        pose proof (Hq _ _ _ _ _ _ Hrun) as ->.
        subst changes. cbn [map length] in Hdn. rewrite ceilDiv_zero in Hdn.
        apply length_zero_iff_nil in Hdn. rewrite Hdn. reflexivity.
  - exists set, logs. close_run.
Qed.

Lemma zonesLoop_run (zs : list HostedZone) :
  forall (set : Set_) (trace : list event) (listError : option error),
  exists set' new,
    forEach (zonesBody forZone opts svc) zs (set, trace, listError)
      = Done (match firstFailure svc zs with Some _ => false | None => true end,
              (set', trace ++ new,
               match firstFailure svc zs with
               | Some (_, e) => Some e
               | None => listError
               end)) /\
    marks new = flat_map (managedRecordsOf svc) (reached svc zs) /\
    listings new = map zId (reached svc zs) /\
    (quiet forZone opts -> requests new = []).
Proof.
  induction zs as [| z zs IH]; intros set trace listError.
  - exists set, []. rewrite app_nil_r. close_run.
  - destruct (zonesBody_run z set trace listError)
      as (set1 & new1 & Hrun & Hm1 & Hl1 & Hr1).
    cbn [forEach]. rewrite Hrun. cbn [mbind outcome_bind].
    cbn [firstFailure reached] in *.
    destruct (managedZone z).
    + destruct (failure (ListResourceRecordSets svc (zId z))) as [e |].
      * exists set1, new1. close_run.
      * destruct (IH set1 (trace ++ new1) listError)
          as (set2 & new2 & Hrest & Hm2 & Hl2 & Hr2).
        exists set2, (new1 ++ new2). rewrite Hrest, app_assoc.
        split; [reflexivity |].
        rewrite marks_app, listings_app, requests_app, Hm1, Hm2, Hl1, Hl2.
        cbn [flat_map map app]. rewrite !app_nil_r.
        close_run. intros Hq. rewrite (Hr1 Hq), (Hr2 Hq). reflexivity.
    + destruct (IH set1 (trace ++ new1) listError)
        as (set2 & new2 & Hrest & Hm2 & Hl2 & Hr2).
      exists set2, (new1 ++ new2). rewrite Hrest, app_assoc.
      split; [reflexivity |].
      rewrite marks_app, listings_app, requests_app, Hm1, Hm2, Hl1, Hl2.
      close_run. intros Hq. rewrite (Hr1 Hq), (Hr2 Hq). reflexivity.
Qed.

(** The sweep as a whole: it returns the enumeration failure, has asked
    for the record sets of the reached zones and called [Mark] on their
    managed records, in order. *)
Lemma sweep_run (set : Set_) :
  exists set' trace,
    sweep forZone opts svc set = Done (sweepError svc, set', trace) /\
    marks trace = flat_map (managedRecordsOf svc) (reached svc (zonesOf svc)) /\
    listings trace = map zId (reached svc (zonesOf svc)) /\
    (quiet forZone opts -> requests trace = []).
Proof.
  unfold sweep, listPages.
  change (pageFunc forZone opts svc) with (forEach (zonesBody forZone opts svc)).
  rewrite eachPage_forEach. fold (zonesOf svc).
  destruct (zonesLoop_run (zonesOf svc) set [] None)
    as (set' & new & Hrun & Hm & Hl & Hr).
  rewrite Hrun. unfold sweepError.
  exists set', new.
  destruct (firstFailure svc (zonesOf svc)) as [[z e] |];
    cbn [mbind outcome_bind]; close_run.
Qed.

End SweepFacts.

(** ** The two listers enumerate *)

Lemma candidates_app (t1 t2 : list event) :
  candidates (t1 ++ t2) = candidates t1 ++ candidates t2.
Proof. apply omap_app. Qed.

Lemma resourceRecordSetIsManaged_no_candidate rrs :
  candidates (snd (resourceRecordSetIsManaged rrs)) = [].
Proof.
  unfold resourceRecordSetIsManaged.
  destruct (negb _); [reflexivity |].
  destruct (existsb _ _); reflexivity.
Qed.

Lemma candidates_marked (o : route53ResourceRecordSet) (old : bool) :
  candidates [Marked o old] = if old then [o] else [].
Proof. destruct old; reflexivity. Qed.

Lemma candidates_log (l : level) (m : message) : candidates [Log l m] = [].
Proof. reflexivity. Qed.

Section ListersEnumerate.

Variable Mark :
  Set_ -> route53ResourceRecordSet -> option Z -> bool * Set_.

Lemma lister_enumerates (svc : Route53) :
  enumerates svc (route53ResourceRecordSetsForZone Mark svc).
Proof.
  intros z set.
  destruct (route53ResourceRecordSetsForZone_run Mark svc z set)
    as (set' & evs & Hrun & H).
  exists [], set', evs. split; assumption.
Qed.

(** The slice the lister of the source returns is empty, whatever the
    provider and the tracker answer. *)
Lemma lister_returns_none (svc : Route53) :
  returnsNone (route53ResourceRecordSetsForZone Mark svc).
Proof.
  intros z set toDelete err set' evs Hrun.
  destruct (route53ResourceRecordSetsForZone_run Mark svc z set)
    as (set1 & evs1 & Hrun1 & _).
  rewrite Hrun1 in Hrun. congruence.
Qed.

Lemma recordsBody_spec_run (z : HostedZone) (rrs : ResourceRecordSet)
    (set : Set_) (evs : list event)
    (toDelete : list route53ResourceRecordSet) :
  exists set' new,
    recordsBody_spec Mark z rrs (set, evs, toDelete)
      = Done (true, (set', evs ++ new, toDelete ++ candidates new)) /\
    marks new = (if managedRecord rrs then [mkR53 z rrs] else []) /\
    requests new = [] /\ listings new = [].
Proof.
  unfold recordsBody_spec.
  pose proof (resourceRecordSetIsManaged_onlyLogs rrs) as (Hr & Hm & Hl).
  pose proof (resourceRecordSetIsManaged_no_candidate rrs) as Hc.
  pose proof (managedRecord_has_name rrs) as Hname.
  unfold managedRecord in *.
  destruct (resourceRecordSetIsManaged rrs) as [managed logs].
  cbn [fst snd] in *. destruct managed; cbn [negb].
  - destruct (Mark set (mkR53 z rrs) None) as [old set'].
    destruct Hname as [name Hname]; [reflexivity |].
    destruct old.
    + rewrite Hname. cbn [deref mbind outcome_bind].
      exists set',
        (logs ++ [Marked (mkR53 z rrs) true]
              ++ [Log Warning (MsgDeleting (ARN (mkR53 z rrs)) name)]).
      rewrite !candidates_app, Hc, candidates_marked, candidates_log.
      rewrite !app_assoc, !app_nil_r. split; [reflexivity |].
      rewrite !marks_app, !requests_app, !listings_app, Hr, Hm, Hl.
      repeat split.
    + exists set', (logs ++ [Marked (mkR53 z rrs) false]).
      rewrite !candidates_app, Hc, candidates_marked.
      rewrite !app_assoc, !app_nil_r. split; [reflexivity |].
      rewrite !marks_app, !requests_app, !listings_app, Hr, Hm, Hl.
      repeat split.
  - exists set, logs. rewrite Hc, app_nil_r. repeat split; assumption.
Qed.

Lemma recordsPageFunc_spec_run (z : HostedZone) (rs : list ResourceRecordSet) :
  forall (set : Set_) (evs : list event)
         (toDelete : list route53ResourceRecordSet),
  exists set' new,
    recordsPageFunc_spec Mark z rs (set, evs, toDelete)
      = Done (true, (set', evs ++ new, toDelete ++ candidates new)) /\
    marks new = map (mkR53 z) (List.filter managedRecord rs) /\
    requests new = [] /\ listings new = [].
Proof.
  unfold recordsPageFunc_spec.
  induction rs as [| rrs rs IH]; intros set evs toDelete.
  - exists set, []. cbn [forEach mbind outcome_bind candidates omap].
    rewrite !app_nil_r. repeat split.
  - destruct (recordsBody_spec_run z rrs set evs toDelete)
      as (set1 & new1 & Hrun & Hm1 & Hr1 & Hl1).
    destruct (IH set1 (evs ++ new1) (toDelete ++ candidates new1))
      as (set2 & new2 & Hrest & Hm2 & Hr2 & Hl2).
    exists set2, (new1 ++ new2).
    cbn [forEach]. rewrite Hrun. cbn [mbind outcome_bind] in *.
    rewrite Hrest, candidates_app, !app_assoc. split; [reflexivity |].
    rewrite marks_app, requests_app, listings_app, Hm1, Hm2, Hr1, Hr2, Hl1, Hl2.
    repeat split. cbn [List.filter].
    destruct (managedRecord rrs); reflexivity.
Qed.

Lemma recordsPages_spec_run (z : HostedZone)
    (ps : list (list ResourceRecordSet)) (err : option error) :
  forall (set : Set_) (evs : list event)
         (toDelete : list route53ResourceRecordSet),
  exists set' new,
    eachPage (recordsPageFunc_spec Mark z) ps err (set, evs, toDelete)
      = Done (err, (set', evs ++ new, toDelete ++ candidates new)) /\
    marks new = map (mkR53 z) (List.filter managedRecord (concat ps)) /\
    requests new = [] /\ listings new = [].
Proof.
  induction ps as [| p ps IH]; intros set evs toDelete.
  - exists set, []. cbn [eachPage candidates omap].
    rewrite !app_nil_r. repeat split.
  - destruct (recordsPageFunc_spec_run z p set evs toDelete)
      as (set1 & new1 & Hrun & Hm1 & Hr1 & Hl1).
    destruct (IH set1 (evs ++ new1) (toDelete ++ candidates new1))
      as (set2 & new2 & Hrest & Hm2 & Hr2 & Hl2).
    exists set2, (new1 ++ new2).
    cbn [eachPage]. rewrite Hrun. cbn [mbind outcome_bind].
    rewrite Hrest, candidates_app, !app_assoc. split; [reflexivity |].
    rewrite marks_app, requests_app, listings_app, Hm1, Hm2, Hr1, Hr2, Hl1, Hl2.
    cbn [concat]. rewrite List.filter_app, map_app. repeat split.
Qed.

(** The lister as specified returns, when the listing succeeds, the
    resources for which [Mark] answered true. *)
Lemma lister_spec_run (svc : Route53) (z : HostedZone) (set : Set_) :
  exists set' evs,
    route53ResourceRecordSetsForZone_spec Mark svc z set
      = Done (match failure (ListResourceRecordSets svc (zId z)) with
              | Some _ => []
              | None => candidates evs
              end,
              failure (ListResourceRecordSets svc (zId z)), set', evs) /\
    marks evs = managedRecordsOf svc z /\
    requests evs = [] /\ listings evs = [zId z].
Proof.
  unfold route53ResourceRecordSetsForZone_spec, listPages.
  destruct (recordsPages_spec_run z
              (pages (ListResourceRecordSets svc (zId z)))
              (failure (ListResourceRecordSets svc (zId z)))
              set [ListRecords (zId z)] [])
    as (set' & new & Hrun & Hm & Hr & Hl).
  exists set', ([ListRecords (zId z)] ++ new).
  split.
  - rewrite Hrun. cbn [mbind outcome_bind].
    rewrite candidates_app. destruct (failure _); reflexivity.
  - rewrite marks_app, requests_app, listings_app, Hm, Hr, Hl.
    repeat split.
Qed.

Lemma lister_spec_enumerates (svc : Route53) :
  enumerates svc (route53ResourceRecordSetsForZone_spec Mark svc).
Proof.
  intros z set.
  destruct (lister_spec_run svc z set) as (set' & evs & Hrun & H).
  eexists _, set', evs. split; [exact Hrun | exact H].
Qed.

(** [MarkAndSweep], as written: it returns the enumeration failure, calls
    [Mark] on the managed records of the reached zones, and issues no
    change request at all. *)
Lemma MarkAndSweep_run (opts : Options) (svc : Route53) (set : Set_) :
  exists set' trace,
    MarkAndSweep Mark opts svc set = Done (sweepError svc, set', trace) /\
    marks trace = flat_map (managedRecordsOf svc) (reached svc (zonesOf svc)) /\
    listings trace = map zId (reached svc (zonesOf svc)) /\
    requests trace = [].
Proof.
  destruct (sweep_run _ opts svc (lister_enumerates svc) set)
    as (set' & trace & Hrun & Hm & Hl & Hr).
  exists set', trace. repeat split; try assumption.
  apply Hr. right. apply lister_returns_none.
Qed.

End ListersEnumerate.

(** ** The candidates of a zone *)

(** C1: the claim, that the slice [route53ResourceRecordSetsForZone]
    returns holds the records for which [Mark] returned true, fails on the
    code.  For a managed zone with one managed record that [Mark] finds old
    enough, the lister of the source returns the empty slice although the
    record was marked for deletion; the lister as specified returns the
    record; and the sweep, not a dry run, issues no change request. *)
Theorem lister_returns_no_candidate :
  exists evs trace,
    route53ResourceRecordSetsForZone markAlways oneZoneProvider managedZone1
      (NewSet 0) = Done ([], None, NewSet 0, evs) /\
    candidates evs = [mkR53 managedZone1 apiRecord] /\
    route53ResourceRecordSetsForZone_spec markAlways oneZoneProvider
      managedZone1 (NewSet 0)
      = Done ([mkR53 managedZone1 apiRecord], None, NewSet 0, evs) /\
    MarkAndSweep markAlways (sampleOptions false) oneZoneProvider (NewSet 0)
      = Done (None, NewSet 0, trace) /\
    candidates trace = [mkR53 managedZone1 apiRecord] /\
    requests trace = [].
Proof.
  eexists. eexists.
  split; [vm_compute; reflexivity |].
  split; [vm_compute; reflexivity |].
  split; [vm_compute; reflexivity |].
  split; [vm_compute; reflexivity |].
  split; vm_compute; reflexivity.
Qed.

(** ** Dry runs *)

(** C2, as stated, fails: a dry run whose record listing fails for a zone
    stops there, like any run, and [Mark] is not called on the managed
    records of the managed zones that follow. *)
Lemma dry_run_does_not_mark_past_a_failed_listing :
  ~ (forall Mark opts svc set,
       DryRun opts = true ->
       exists err set' trace,
         MarkAndSweep Mark opts svc set = Done (err, set', trace) /\
         requests trace = [] /\
         marksEveryManagedRecord svc trace).
Proof.
  intros Hclaim.
  destruct (Hclaim markAlways (sampleOptions true) failingProvider (NewSet 0)
              eq_refl)
    as (err & set' & trace & Hrun & _ & Hall).
  destruct (MarkAndSweep_run markAlways (sampleOptions true) failingProvider
              (NewSet 0))
    as (set1 & trace1 & Hrun1 & Hmarks & _).
  rewrite Hrun1 in Hrun. injection Hrun as _ _ <-.
  specialize (Hall managedZone3 apiRecord).
  rewrite Hmarks in Hall. vm_compute in Hall.
  destruct Hall as [H | [H | [H | []]]]; auto 6; discriminate H.
Qed.

(** C2, amended: in a dry run, [MarkAndSweep] completes without a single
    change request, and [Mark] has been called on every managed record of
    every managed zone the enumeration reached (the managed zones up to
    and including the first whose record listing fails), in order; when
    the run returns no error, these are all the managed zones.  The same
    holds for the sweep over any lister that enumerates, whatever
    candidates it returns. *)
Theorem dry_run_marks_and_issues_no_request
    (Mark : Set_ -> route53ResourceRecordSet -> option Z -> bool * Set_)
    (opts : Options) (svc : Route53) (set : Set_) :
  DryRun opts = true ->
  (exists err set' trace,
     MarkAndSweep Mark opts svc set = Done (err, set', trace) /\
     requests trace = [] /\
     marks trace
       = flat_map (managedRecordsOf svc) (reached svc (zonesOf svc)) /\
     (err = None ->
      reached svc (zonesOf svc) = List.filter managedZone (zonesOf svc))) /\
  (forall forZone, enumerates svc forZone ->
     exists err set' trace,
       sweep forZone opts svc set = Done (err, set', trace) /\
       requests trace = [] /\
       marks trace
         = flat_map (managedRecordsOf svc) (reached svc (zonesOf svc))).
Proof.
  intros Hdry.
  assert (Hgen : forall forZone, enumerates svc forZone ->
            exists set' trace,
              sweep forZone opts svc set = Done (sweepError svc, set', trace) /\
              requests trace = [] /\
              marks trace
                = flat_map (managedRecordsOf svc) (reached svc (zonesOf svc))).
  { intros forZone Henum.
    destruct (sweep_run forZone opts svc Henum set)
      as (set' & trace & Hrun & Hm & _ & Hr).
    exists set', trace. repeat split; try assumption.
    apply Hr. left. exact Hdry. }
  split.
  - destruct (Hgen _ (lister_enumerates Mark svc))
      as (set' & trace & Hrun & Hr & Hm).
    exists (sweepError svc), set', trace. repeat split; try assumption.
    unfold sweepError. intros Hok. apply firstFailure_none_reached.
    destruct (firstFailure svc (zonesOf svc)) as [[z e] |];
      [discriminate | reflexivity].
  - intros forZone Henum.
    destruct (Hgen forZone Henum) as (set' & trace & H).
    exists (sweepError svc), set', trace. exact H.
Qed.

Lemma dry_run_marks_and_issues_no_request_witness :
  exists err set' trace,
    MarkAndSweep markAlways (sampleOptions true) healthyProvider (NewSet 0)
      = Done (err, set', trace) /\
    requests trace = [] /\
    marks trace
      = [mkR53 managedZone1 apiRecord; mkR53 managedZone1 etcdRecord;
         mkR53 managedZone3 apiRecord; mkR53 managedZone3 etcdRecord].
Proof.
  destruct (proj1 (dry_run_marks_and_issues_no_request
                     markAlways (sampleOptions true) healthyProvider
                     (NewSet 0) eq_refl))
    as (err & set' & trace & Hrun & Hr & Hm & _).
  exists err, set', trace. split; [exact Hrun |]. split; [exact Hr |].
  rewrite Hm. vm_compute. reflexivity.
Defined.

(** A dry run over the lister as specified: 1201 candidates and not one
    change request. *)
Example dry_run_over_1201_candidates :
  match sweep (route53ResourceRecordSetsForZone_spec markAlways bulkProvider)
              (sampleOptions true) bulkProvider (NewSet 0) with
  | Done (err, _, trace) =>
      err = None /\ length (candidates trace) = 1201 /\ requests trace = []
  | Panic => False
  end.
Proof. vm_compute. repeat split. Qed.

(** ** A record listing that fails *)

Lemma forEach_ext {A S : Type} (body body' : A -> S -> outcome (bool * S))
    (l : list A) (s : S) :
  (forall x s, body x s = body' x s) ->
  forEach body l s = forEach body' l s.
Proof.
  intros Hbody. revert s. induction l as [| x l IH]; intros s; [reflexivity |].
  cbn [forEach]. rewrite Hbody.
  destruct (body' x s) as [[[] s'] |]; cbn [mbind outcome_bind]; auto.
Qed.

(** A loop whose body stops at an element does not see what follows it. *)
Lemma forEach_cut {A S : Type} (body : A -> S -> outcome (bool * S))
    (l1 : list A) (x : A) (l2 : list A) (s : S) :
  (forall s1, exists s2, body x s1 = Done (false, s2)) ->
  forEach body (l1 ++ x :: l2) s = forEach body (l1 ++ [x]) s.
Proof.
  intros Hstop. rewrite !forEach_app.
  destruct (forEach body l1 s) as [[[] s1] |]; [| reflexivity | reflexivity].
  cbn [forEach]. destruct (Hstop s1) as [s2 ->]. reflexivity.
Qed.

Lemma firstFailure_app (svc : Route53) (l1 l2 : list HostedZone) :
  firstFailure svc l1 = None ->
  firstFailure svc (l1 ++ l2) = firstFailure svc l2.
Proof.
  induction l1 as [| z l1 IH]; [reflexivity |].
  cbn [firstFailure app]. destruct (managedZone z); [| exact IH].
  destruct (failure (ListResourceRecordSets svc (zId z)));
    [discriminate | exact IH].
Qed.

Lemma reached_app (svc : Route53) (l1 l2 : list HostedZone) :
  firstFailure svc l1 = None ->
  reached svc (l1 ++ l2) = List.filter managedZone l1 ++ reached svc l2.
Proof.
  induction l1 as [| z l1 IH]; [reflexivity |].
  cbn [firstFailure reached List.filter app].
  destruct (managedZone z); [| exact IH].
  destruct (failure (ListResourceRecordSets svc (zId z))); [discriminate |].
  intros H. rewrite (IH H). reflexivity.
Qed.

Lemma deleteChunks_withZones (svc : Route53) (zs : list HostedZone)
    (z : HostedZone) (fuel : nat) :
  forall changes trace,
    deleteChunks fuel (withZones svc zs) z changes trace
    = deleteChunks fuel svc z changes trace.
Proof.
  induction fuel as [| fuel IH]; intros changes trace; [reflexivity |].
  destruct changes as [| c l]; [reflexivity |].
  cbn [deleteChunks]. destruct (changeLimit <? length (c :: l)); apply IH.
Qed.

Lemma zonesBody_withZones
    (forZone : HostedZone -> Set_ ->
               outcome (list route53ResourceRecordSet * option error
                        * Set_ * list event))
    (opts : Options) (svc : Route53) (zs : list HostedZone)
    (z : HostedZone) (st : sweepState) :
  zonesBody forZone opts (withZones svc zs) z st
  = zonesBody forZone opts svc z st.
Proof.
  unfold zonesBody. destruct st as [[set trace] listError].
  destruct (zoneIsManaged z) as [managed logs].
  destruct (negb managed); [reflexivity |].
  destruct (forZone z set) as [[[[toDelete err] set'] evs] |];
    [| reflexivity].
  cbn [mbind outcome_bind]. destruct err; [reflexivity |].
  destruct (DryRun opts); [reflexivity |].
  rewrite deleteChunks_withZones. reflexivity.
Qed.

(** C4: when the record listing of a managed zone Z fails (those of the
    managed zones before it having succeeded), [MarkAndSweep] returns that
    error; it has asked for the record sets of, and called [Mark] for, the
    managed zones up to Z only; and the whole run, the set it leaves and
    its trace with every log line, is the run over a zone listing that ends
    with Z: no zone after Z is filtered, marked or deleted from. *)
Theorem failed_listing_stops_the_sweep
    (Mark : Set_ -> route53ResourceRecordSet -> option Z -> bool * Set_)
    (opts : Options) (svc : Route53) (set : Set_)
    (before : list HostedZone) (zoneZ : HostedZone) (after : list HostedZone)
    (e : error) :
  zonesOf svc = before ++ zoneZ :: after ->
  firstFailure svc before = None ->
  fst (zoneIsManaged zoneZ) = true ->
  failure (ListResourceRecordSets svc (zId zoneZ)) = Some e ->
  exists set' trace,
    MarkAndSweep Mark opts svc set = Done (Some e, set', trace) /\
    listings trace = map zId (List.filter managedZone before ++ [zoneZ]) /\
    marks trace
      = flat_map (managedRecordsOf svc) (List.filter managedZone before ++ [zoneZ])
    /\ requests trace = [] /\
    MarkAndSweep Mark opts (withZones svc (before ++ [zoneZ])) set
      = Done (Some e, set', trace).
Proof.
  intros Hzones Hbefore Hmanaged Hfail.
  assert (HZ : forall l, firstFailure svc (zoneZ :: l) = Some (zoneZ, e)).
  { intros l. cbn [firstFailure]. unfold managedZone.
    rewrite Hmanaged, Hfail. reflexivity. }
  assert (HrZ : forall l, reached svc (zoneZ :: l) = [zoneZ]).
  { intros l. cbn [reached]. unfold managedZone.
    rewrite Hmanaged, Hfail. reflexivity. }
  destruct (MarkAndSweep_run Mark opts svc set)
    as (set' & trace & Hrun & Hm & Hl & Hr).
  unfold sweepError in Hrun.
  rewrite Hzones, reached_app, HrZ in Hm, Hl by assumption.
  rewrite Hzones, firstFailure_app, HZ in Hrun by assumption.
  exists set', trace. repeat split; try assumption.
  rewrite <- Hrun. unfold MarkAndSweep, sweep, listPages.
  change (pageFunc ?f opts ?s) with (forEach (zonesBody f opts s)).
  rewrite !eachPage_forEach. fold (zonesOf svc). rewrite Hzones.
  cbn [withZones ListHostedZones pages failure concat].
  rewrite app_nil_r.
  rewrite (forEach_ext _ _ _ _
             (zonesBody_withZones
                (route53ResourceRecordSetsForZone Mark svc) opts svc
                (before ++ [zoneZ]))).
  rewrite (forEach_cut _ before zoneZ after).
  { destruct (zonesLoop_run _ opts svc (lister_enumerates Mark svc)
                (before ++ [zoneZ]) set [] None) as (set1 & new & Hloop & _).
    rewrite Hloop, firstFailure_app, HZ by assumption. reflexivity. }
  intros [[set1 trace1] listError1].
  destruct (zonesBody_run _ opts svc (lister_enumerates Mark svc)
              zoneZ set1 trace1 listError1) as (set2 & new & Hbody & _).
  rewrite HZ in Hbody. eexists. exact Hbody.
Qed.

Lemma failed_listing_stops_the_sweep_witness :
  exists set' trace,
    MarkAndSweep markAlways (sampleOptions false) failingProvider (NewSet 0)
      = Done (Some throttled, set', trace) /\
    listings trace = [Some "Z1"; Some "Z2"] /\
    marks trace
      = [mkR53 managedZone1 apiRecord; mkR53 managedZone1 etcdRecord;
         mkR53 managedZone2 apiRecord].
Proof.
  destruct (failed_listing_stops_the_sweep
              markAlways (sampleOptions false) failingProvider (NewSet 0)
              [foreignZone; managedZone1] managedZone2 [managedZone3]
              throttled eq_refl eq_refl eq_refl eq_refl)
    as (set' & trace & Hrun & Hl & Hm & _).
  exists set', trace. split; [exact Hrun |]. split.
  - rewrite Hl. vm_compute. reflexivity.
  - rewrite Hm. vm_compute. reflexivity.
Defined.

(** ** Change requests that fail *)

Lemma attempts_app (t1 t2 : list event) :
  attempts (t1 ++ t2) = attempts t1 ++ attempts t2.
Proof. apply omap_app. Qed.

(** What a trace attempted keeps its requests, its [Mark] calls and its
    listings. *)
Lemma requests_attempts (t : list event) : requests (attempts t) = requests t.
Proof.
  unfold requests, attempts. induction t as [| e t IH]; [reflexivity |].
  destruct e as [l [] | | |]; cbn; rewrite ?IH; reflexivity.
Qed.

Lemma marks_attempts (t : list event) : marks (attempts t) = marks t.
Proof.
  unfold marks, attempts. induction t as [| e t IH]; [reflexivity |].
  destruct e as [l [] | | |]; cbn; rewrite ?IH; reflexivity.
Qed.

Lemma listings_attempts (t : list event) : listings (attempts t) = listings t.
Proof.
  unfold listings, attempts. induction t as [| e t IH]; [reflexivity |].
  destruct e as [l [] | | |]; cbn; rewrite ?IH; reflexivity.
Qed.

Lemma attempts_requests_length (t1 t2 : list event) :
  attempts t1 = attempts t2 -> length (requests t1) = length (requests t2).
Proof.
  intros H. rewrite <- (requests_attempts t1), <- (requests_attempts t2), H.
  reflexivity.
Qed.

Lemma attempts_request (req : ChangeResourceRecordSetsInput)
    (res : option error) :
  attempts [ChangeRequest req res] = [ChangeRequest req None].
Proof. reflexivity. Qed.

Lemma attempts_unable (l : level) (e : error) :
  attempts [Log l (MsgUnableToDelete e)] = [].
Proof. reflexivity. Qed.

Section ChangeAnswers.

Variable svc : Route53.
Variables f g : nat -> ChangeResourceRecordSetsInput -> option error.

Lemma deleteChunks_attempts (z : HostedZone) (fuel : nat) :
  forall changes t1 t2,
    attempts t1 = attempts t2 ->
    attempts (deleteChunks fuel (withChanges svc f) z changes t1)
    = attempts (deleteChunks fuel (withChanges svc g) z changes t2).
Proof.
  induction fuel as [| fuel IH]; intros changes t1 t2 Hsame; [exact Hsame |].
  destruct changes as [| c l]; [exact Hsame |].
  cbn [deleteChunks].
  set (changes := c :: l).
  destruct (changeLimit <? length changes).
  - cbn [withChanges ChangeResourceRecordSets].
    apply IH.
    set (chunk := take changeLimit changes).
    destruct (f _ _), (g _ _);
      rewrite !attempts_app, Hsame, !attempts_request, ?attempts_unable,
        ?app_nil_r;
      reflexivity.
  - cbn [withChanges ChangeResourceRecordSets].
    apply IH.
    destruct (f _ _), (g _ _);
      rewrite !attempts_app, Hsame, !attempts_request, ?attempts_unable,
        ?app_nil_r;
      reflexivity.
Qed.

Variable forZone :
  HostedZone -> Set_ ->
  outcome (list route53ResourceRecordSet * option error * Set_ * list event).
Variable opts : Options.

Lemma zonesBody_sameAttempts (z : HostedZone) (st1 st2 : sweepState) :
  sameAttempts st1 st2 ->
  sameOutcome sameStep
    (zonesBody forZone opts (withChanges svc f) z st1)
    (zonesBody forZone opts (withChanges svc g) z st2).
Proof.
  destruct st1 as [[set1 t1] le1], st2 as [[set2 t2] le2].
  intros (<- & Hsame & <-). unfold zonesBody.
  destruct (zoneIsManaged z) as [managed logs].
  destruct (negb managed).
  - cbn. repeat split. rewrite !attempts_app, Hsame. reflexivity.
  - destruct (forZone z set1) as [[[[toDelete err] set'] evs] |]; [| exact I].
    cbn [mbind outcome_bind].
    assert (Hevs : attempts ((t1 ++ logs) ++ evs)
                   = attempts ((t2 ++ logs) ++ evs))
      by (rewrite !attempts_app, Hsame; reflexivity).
    destruct err as [e |]; [cbn; repeat split; exact Hevs |].
    destruct (DryRun opts); [cbn; repeat split; exact Hevs |].
    cbn. repeat split. apply deleteChunks_attempts, Hevs.
Qed.

Lemma zonesLoop_sameAttempts (zs : list HostedZone) :
  forall st1 st2,
    sameAttempts st1 st2 ->
    sameOutcome sameStep
      (forEach (zonesBody forZone opts (withChanges svc f)) zs st1)
      (forEach (zonesBody forZone opts (withChanges svc g)) zs st2).
Proof.
  induction zs as [| z zs IH]; intros st1 st2 Hsame.
  - cbn. split; [reflexivity | exact Hsame].
  - cbn [forEach].
    pose proof (zonesBody_sameAttempts z st1 st2 Hsame) as Hstep.
    destruct (zonesBody forZone opts (withChanges svc f) z st1)
      as [[b1 s1] |],
      (zonesBody forZone opts (withChanges svc g) z st2) as [[b2 s2] |];
      try contradiction; [| exact I].
    destruct Hstep as [Hb Hs]. cbn [fst snd] in Hb, Hs. subst b2.
    cbn [mbind outcome_bind]. destruct b1; [apply IH, Hs |].
    split; [reflexivity | exact Hs].
Qed.

End ChangeAnswers.

Lemma firstFailure_withChanges (svc : Route53)
    (f : nat -> ChangeResourceRecordSetsInput -> option error)
    (zs : list HostedZone) :
  firstFailure (withChanges svc f) zs = firstFailure svc zs.
Proof.
  induction zs as [| z zs IH]; [reflexivity |].
  cbn [firstFailure withChanges ListResourceRecordSets]. rewrite IH.
  reflexivity.
Qed.

(** The enumeration failure does not depend on the change requests. *)
Lemma sweepError_withChanges (svc : Route53)
    (f : nat -> ChangeResourceRecordSetsInput -> option error) :
  sweepError (withChanges svc f) = sweepError svc.
Proof.
  unfold sweepError, zonesOf. rewrite firstFailure_withChanges. reflexivity.
Qed.

Lemma sweep_sameRun
    (forZone : HostedZone -> Set_ ->
               outcome (list route53ResourceRecordSet * option error
                        * Set_ * list event))
    (opts : Options) (svc : Route53)
    (f g : nat -> ChangeResourceRecordSetsInput -> option error)
    (set : Set_) :
  sameOutcome sameRun
    (sweep forZone opts (withChanges svc f) set)
    (sweep forZone opts (withChanges svc g) set).
Proof.
  unfold sweep, listPages.
  change (pageFunc forZone opts ?s) with (forEach (zonesBody forZone opts s)).
  rewrite !eachPage_forEach.
  cbn [withChanges ListHostedZones].
  assert (Hstart : sameAttempts (set, [], None) (set, [], None))
    by (repeat split).
  pose proof (zonesLoop_sameAttempts svc f g forZone opts
                (concat (pages (ListHostedZones svc))) _ _ Hstart) as Hloop.
  fold (withChanges svc f) (withChanges svc g).
  destruct (forEach (zonesBody forZone opts (withChanges svc f)) _ _)
    as [[b1 [[set1 t1] le1]] |],
    (forEach (zonesBody forZone opts (withChanges svc g)) _ _)
    as [[b2 [[set2 t2] le2]] |];
    try contradiction; [| exact I].
  destruct Hloop as (Hb & Hset & Hatt & Hle). cbn [fst snd] in *.
  subst b2 set2 le2.
  assert (Hreq : requests t1 = requests t2)
    by (rewrite <- (requests_attempts t1), <- (requests_attempts t2), Hatt;
        reflexivity).
  destruct b1, le1; cbn; repeat split; assumption.
Qed.

(** C3: the answers to the change requests have no influence on what the
    sweep attempts nor on the error it returns.  Over any per-zone lister,
    two runs that differ only in which change requests fail return the
    same error, leave the same set and issue the same change requests, in
    the same order, for the same zones: a request that fails is followed
    by the requests that follow it when it succeeds.  Over a lister that
    enumerates, and so for [MarkAndSweep], the error returned is the
    enumeration failure, a function of the listings alone. *)
Theorem failed_deletes_do_not_stop_the_sweep
    (forZone : HostedZone -> Set_ ->
               outcome (list route53ResourceRecordSet * option error
                        * Set_ * list event))
    (opts : Options) (svc : Route53)
    (f g : nat -> ChangeResourceRecordSetsInput -> option error)
    (set : Set_) :
  sameOutcome sameRun
    (sweep forZone opts (withChanges svc f) set)
    (sweep forZone opts (withChanges svc g) set) /\
  (enumerates svc forZone ->
   exists set' trace,
     sweep forZone opts (withChanges svc f) set
       = Done (sweepError svc, set', trace)) /\
  (forall Mark,
     sameOutcome sameRun
       (MarkAndSweep Mark opts (withChanges svc f) set)
       (MarkAndSweep Mark opts (withChanges svc g) set) /\
     exists set' trace,
       MarkAndSweep Mark opts (withChanges svc f) set
         = Done (sweepError svc, set', trace)).
Proof.
  split; [apply sweep_sameRun |]. split.
  - intros Henum.
    destruct (sweep_run forZone opts (withChanges svc f) Henum set)
      as (set' & trace & Hrun & _).
    exists set', trace. rewrite <- (sweepError_withChanges svc f). exact Hrun.
  - intros Mark. split.
    + apply (sweep_sameRun (route53ResourceRecordSetsForZone Mark svc)).
    + destruct (MarkAndSweep_run Mark opts (withChanges svc f) set)
        as (set' & trace & Hrun & _).
      exists set', trace. rewrite <- (sweepError_withChanges svc f).
      exact Hrun.
Qed.

Lemma failed_deletes_do_not_stop_the_sweep_witness :
  exists set' trace,
    sweep (route53ResourceRecordSetsForZone_spec markAlways bulkProvider)
          (sampleOptions false) (withChanges bulkProvider failsFirst)
          (NewSet 0)
      = Done (None, set', trace).
Proof.
  exact (proj1 (proj2 (failed_deletes_do_not_stop_the_sweep
                         (route53ResourceRecordSetsForZone_spec
                            markAlways bulkProvider)
                         (sampleOptions false) bulkProvider
                         failsFirst neverFails (NewSet 0)))
               (lister_spec_enumerates markAlways bulkProvider)).
Defined.

(** A run in which the first change request fails: the second chunk of the
    zone and the chunk of the next zone are requested all the same, and the
    sweep returns no error. *)
Example failed_chunk_is_followed_by_the_next :
  match sweep (route53ResourceRecordSetsForZone_spec markAlways bulkProvider)
              (sampleOptions false) (withChanges bulkProvider failsFirst)
              (NewSet 0) with
  | Done (err, _, trace) =>
      err = None /\
      omap (fun e => match e with
                     | ChangeRequest req res =>
                         Some (HostedZoneId req, length (Changes req), res)
                     | _ => None
                     end) trace
      = [(Some "Z1", 1000, Some throttled); (Some "Z1", 200, None);
         (Some "Z3", 1, None)]
  | Panic => False
  end.
Proof. vm_compute. split; reflexivity. Qed.

(** ** The inventory *)

Lemma applyWrites_app (ws1 ws2 : list (string * Z)) (m : gmap string Z) :
  applyWrites (ws1 ++ ws2) m = applyWrites ws2 (applyWrites ws1 m).
Proof. apply foldl_app. Qed.

Lemma withWrites_app (ws1 ws2 : list (string * Z)) (set : Set_) :
  withWrites (ws1 ++ ws2) set = withWrites ws2 (withWrites ws1 set).
Proof. unfold withWrites. cbn. rewrite applyWrites_app. reflexivity. Qed.

Lemma withWrites_nil (set : Set_) : withWrites [] set = set.
Proof. destruct set. reflexivity. Qed.

(** A key is in the map after the writes when it was there before or was
    written. *)
Lemma applyWrites_lookup (ws : list (string * Z)) :
  forall (m : gmap string Z) (k : string),
    is_Some (applyWrites ws m !! k) <-> is_Some (m !! k) \/ In k (map fst ws).
Proof.
  induction ws as [| [k' t] ws IH]; intros m k.
  - cbn. tauto.
  - change (applyWrites ((k', t) :: ws) m)
      with (applyWrites ws (<[k' := t]> m)).
    rewrite IH, lookup_insert_is_Some. cbn [map fst In].
    destruct (decide (k' = k)) as [-> | Hne]; [tauto |].
    intuition congruence.
Qed.

Section InventoryFacts.

Variable now : nat -> Z.

Lemma recordSetsPageFunc_run (z : HostedZone)
    (rs : list ResourceRecordSet) (set : Set_) (ticks : nat) :
  recordSetsPageFunc now z rs (set, ticks)
  = Done (true,
          (withWrites (map (fun r => (ARN (mkR53 z r), now ticks)) rs) set,
           S ticks)).
Proof.
  unfold recordSetsPageFunc. do 3 f_equal.
  revert set. induction rs as [| r rs IH]; intros set.
  - symmetry. apply withWrites_nil.
  - cbn [foldl map]. rewrite IH.
    change ((ARN (mkR53 z r), now ticks)
              :: map (fun r => (ARN (mkR53 z r), now ticks)) rs)
      with ([(ARN (mkR53 z r), now ticks)]
              ++ map (fun r => (ARN (mkR53 z r), now ticks)) rs).
    rewrite withWrites_app. reflexivity.
Qed.

Lemma recordSetsPages_run (z : HostedZone)
    (ps : list (list ResourceRecordSet)) (err : option error) :
  forall (set : Set_) (ticks : nat),
    eachPage (recordSetsPageFunc now z) ps err (set, ticks)
    = Done (err, (withWrites (pageWrites now z ps ticks) set,
                  ticks + length ps)).
Proof.
  induction ps as [| p ps IH]; intros set ticks.
  - cbn [eachPage pageWrites length]. rewrite withWrites_nil, Nat.add_0_r.
    reflexivity.
  - cbn [eachPage pageWrites length]. rewrite recordSetsPageFunc_run.
    cbn [mbind outcome_bind]. rewrite IH, withWrites_app.
    replace (S ticks + length ps) with (ticks + S (length ps)) by lia.
    reflexivity.
Qed.

Variable opts : Options.
Variable svc : Route53.

(** One iteration of the loop of [ListAll] over the zones. *)
Lemma inventoryBody_run (z : HostedZone) (set : Set_) (ticks : nat)
    (trace : list event) (rrsErr : option error) :
  inventoryBody now opts svc z (set, ticks, trace, rrsErr)
  = if managedZone z then
      let answer := ListResourceRecordSets svc (zId z) in
      let set' := withWrites (pageWrites now z (pages answer) ticks) set in
      let ticks' := ticks + length (pages answer) in
      let trace' := trace ++ [ListRecords (zId z)] in
      match failure answer with
      | Some e =>
          match zId z with
          | Some id =>
              Done (false,
                    (set', ticks', trace',
                     Some (Wrapped e
                             "couldn't describe route53 resources for %q in %q zone %q"
                             [Account opts; Region opts; id])))
          | None => Panic
          end
      | None => Done (true, (set', ticks', trace', rrsErr))
      end
    else Done (true, (set, ticks, trace ++ snd (zoneIsManaged z), rrsErr)).
Proof.
  unfold inventoryBody.
  pose proof (managedZone_no_log z) as Hnolog.
  unfold managedZone in *.
  destruct (zoneIsManaged z) as [managed logs]. cbn [fst snd] in *.
  destruct managed; cbn [negb]; [| reflexivity].
  specialize (Hnolog eq_refl). injection Hnolog as ->.
  unfold listPages. cbv zeta. rewrite recordSetsPages_run.
  cbn [mbind outcome_bind]. rewrite app_nil_r.
  destruct (failure (ListResourceRecordSets svc (zId z))) as [e |];
    [| reflexivity].
  destruct (zId z) as [id |]; reflexivity.
Qed.

(** The loop of [ListAll] over the zones: it panics when the first record
    listing that fails is that of a zone without an id; otherwise it
    leaves the set with the writes of the reached zones, having asked for
    the record sets of these zones only. *)
Lemma inventoryLoop_run (zs : list HostedZone) :
  forall (set : Set_) (ticks : nat) (trace : list event)
         (rrsErr : option error),
  exists ticks' new,
    forEach (inventoryBody now opts svc) zs (set, ticks, trace, rrsErr)
    = match firstFailure svc zs with
      | Some (z, e) =>
          match zId z with
          | Some id =>
              Done (false,
                    (withWrites (zoneWrites now svc zs ticks) set, ticks',
                     trace ++ new,
                     Some (Wrapped e
                             "couldn't describe route53 resources for %q in %q zone %q"
                             [Account opts; Region opts; id])))
          | None => Panic
          end
      | None =>
          Done (true,
                (withWrites (zoneWrites now svc zs ticks) set, ticks',
                 trace ++ new, rrsErr))
      end /\
    listings new = map zId (reached svc zs).
Proof.
  induction zs as [| z zs IH]; intros set ticks trace rrsErr.
  - exists ticks, []. cbn [forEach firstFailure zoneWrites reached].
    rewrite withWrites_nil, app_nil_r. split; reflexivity.
  - cbn [forEach firstFailure zoneWrites reached]. rewrite inventoryBody_run.
    pose proof (zoneIsManaged_onlyLogs z) as (_ & _ & Hlogs).
    destruct (managedZone z); cbv zeta.
    + destruct (failure (ListResourceRecordSets svc (zId z))) as [e |].
      * exists (ticks + length (pages (ListResourceRecordSets svc (zId z)))),
          [ListRecords (zId z)].
        split; [| reflexivity].
        destruct (zId z) as [id |]; cbn [mbind outcome_bind];
          [rewrite app_nil_r |]; reflexivity.
      * cbn [mbind outcome_bind].
        edestruct IH as (ticks' & new & -> & Hl).
        exists ticks', ([ListRecords (zId z)] ++ new).
        rewrite withWrites_app, listings_app, Hl, app_assoc.
        split; reflexivity.
    + cbn [mbind outcome_bind].
      edestruct IH as (ticks' & new & -> & Hl).
      exists ticks', (snd (zoneIsManaged z) ++ new).
      rewrite listings_app, Hlogs, Hl, app_assoc. split; reflexivity.
Qed.

(** [ListAll] as a whole. *)
Lemma ListAll_run :
  exists trace,
    ListAll now opts svc
    = match firstFailure svc (zonesOf svc) with
      | Some (z, e) =>
          match zId z with
          | Some id =>
              Done (Some (withWrites (zoneWrites now svc (zonesOf svc) 0)
                                     (NewSet 0)),
                    inventoryError opts svc, trace)
          | None => Panic
          end
      | None =>
          Done (Some (withWrites (zoneWrites now svc (zonesOf svc) 0)
                                 (NewSet 0)),
                inventoryError opts svc, trace)
      end /\
    listings trace = map zId (reached svc (zonesOf svc)).
Proof.
  unfold ListAll, listPages, inventoryError.
  rewrite eachPage_forEach. fold (zonesOf svc).
  destruct (inventoryLoop_run (zonesOf svc) (NewSet 0) 0 [] None)
    as (ticks' & new & -> & Hl).
  exists new. split; [| exact Hl].
  destruct (firstFailure svc (zonesOf svc)) as [[z e] |]; [| reflexivity].
  destruct (zId z) as [id |]; reflexivity.
Qed.

End InventoryFacts.

Lemma pageWrites_keys (now : nat -> Z) (z : HostedZone)
    (ps : list (list ResourceRecordSet)) :
  forall ticks,
    map fst (pageWrites now z ps ticks) = map (keyOf z) (concat ps).
Proof.
  induction ps as [| p ps IH]; intros ticks; [reflexivity |].
  cbn [pageWrites concat]. rewrite !map_app, IH, map_map. reflexivity.
Qed.

(** The keys written are those of the record sets of the reached zones. *)
Lemma zoneWrites_keys (now : nat -> Z) (svc : Route53)
    (zs : list HostedZone) :
  forall ticks,
    map fst (zoneWrites now svc zs ticks)
    = flat_map (keysOf svc) (reached svc zs).
Proof.
  induction zs as [| z zs IH]; intros ticks; [reflexivity |].
  cbn [zoneWrites reached]. destruct (managedZone z); [| apply IH].
  cbv zeta. rewrite map_app, pageWrites_keys.
  destruct (failure (ListResourceRecordSets svc (zId z))).
  - cbn [flat_map map]. reflexivity.
  - cbn [flat_map]. rewrite IH. reflexivity.
Qed.

(** The timestamps written are readings of the clock. *)
Lemma pageWrites_readings (now : nat -> Z) (z : HostedZone)
    (ps : list (list ResourceRecordSet)) :
  forall ticks k t,
    In (k, t) (pageWrites now z ps ticks) -> exists n, t = now n.
Proof.
  induction ps as [| p ps IH]; intros ticks k t; [intros [] |].
  cbn [pageWrites]. rewrite in_app_iff, in_map_iff.
  intros [(r & Heq & _) | Hin].
  - exists ticks. congruence.
  - eapply IH, Hin.
Qed.

Lemma zoneWrites_readings (now : nat -> Z) (svc : Route53)
    (zs : list HostedZone) :
  forall ticks k t,
    In (k, t) (zoneWrites now svc zs ticks) -> exists n, t = now n.
Proof.
  induction zs as [| z zs IH]; intros ticks k t; [intros [] |].
  cbn [zoneWrites]. destruct (managedZone z); [| apply IH].
  cbv zeta. rewrite in_app_iff. intros [Hin | Hin].
  - eapply pageWrites_readings, Hin.
  - destruct (failure (ListResourceRecordSets svc (zId z)));
      [destruct Hin | eapply IH, Hin].
Qed.

(** A value found after the writes was there before or was written. *)
Lemma applyWrites_lookup_Some (ws : list (string * Z)) :
  forall (m : gmap string Z) (k : string) (t : Z),
    applyWrites ws m !! k = Some t -> m !! k = Some t \/ In (k, t) ws.
Proof.
  induction ws as [| [k' t'] ws IH]; intros m k t; [cbn; auto |].
  change (applyWrites ((k', t') :: ws) m)
    with (applyWrites ws (<[k' := t']> m)).
  intros H. apply IH in H as [H | H]; [| right; right; exact H].
  destruct (decide (k' = k)) as [-> | Hne].
  - rewrite lookup_insert_eq in H. injection H as ->. right. left. reflexivity.
  - rewrite lookup_insert_ne in H by exact Hne. left. exact H.
Qed.

Lemma firstFailure_In (svc : Route53) (zs : list HostedZone)
    (z : HostedZone) (e : error) :
  firstFailure svc zs = Some (z, e) -> In z zs.
Proof.
  induction zs as [| z' zs IH]; [discriminate |].
  cbn [firstFailure]. destruct (managedZone z'); [| right; auto].
  destruct (failure (ListResourceRecordSets svc (zId z'))).
  - intros [= <- _]. left. reflexivity.
  - right. auto.
Qed.

(** C9: when [ListAll] returns without an error, the set it returns holds,
    for every record set that the listing of a managed zone delivers,
    whatever its type and name, an entry under its resource key, stamped
    with a reading of the clock; and every entry of the set is that of a
    record set of a managed zone: nothing is recorded for the zones that
    [zoneIsManaged] rejects, whose record sets are not even asked for. *)
Theorem ListAll_records_all_records_of_managed_zones
    (now : nat -> Z) (opts : Options) (svc : Route53)
    (s : Set_) (trace : list event) :
  ListAll now opts svc = Done (Some s, None, trace) ->
  (forall z r,
     In z (zonesOf svc) -> fst (zoneIsManaged z) = true ->
     In r (recordsOf svc z) ->
     exists n, firstSeen s !! ResourceKey (mkR53 z r) = Some (now n)) /\
  (forall k,
     is_Some (firstSeen s !! k) ->
     exists z r,
       In z (zonesOf svc) /\ fst (zoneIsManaged z) = true /\
       In r (recordsOf svc z) /\ k = ResourceKey (mkR53 z r)) /\
  listings trace = map zId (List.filter managedZone (zonesOf svc)).
Proof.
  intros Hrun.
  destruct (ListAll_run now opts svc) as (trace' & Hall & Hlist).
  rewrite Hrun in Hall. unfold inventoryError in Hall.
  destruct (firstFailure svc (zonesOf svc)) as [[z e] |] eqn:Hfirst.
  { destruct (zId z); discriminate Hall. }
  injection Hall as -> _ <-.
  rewrite (firstFailure_none_reached _ _ Hfirst) in Hlist.
  assert (Hkeys : forall k,
            is_Some (applyWrites (zoneWrites now svc (zonesOf svc) 0) ∅ !! k)
            <-> exists z r,
                  In z (zonesOf svc) /\ fst (zoneIsManaged z) = true /\
                  In r (recordsOf svc z) /\ k = ResourceKey (mkR53 z r)).
  { intros k. rewrite applyWrites_lookup, zoneWrites_keys.
    rewrite (firstFailure_none_reached _ _ Hfirst), in_flat_map.
    rewrite lookup_empty. split.
    - intros [[x Hx] | (z & Hz & Hk)]; [discriminate |].
      apply filter_In in Hz as [Hz Hm].
      unfold keysOf in Hk. apply in_map_iff in Hk as (r & <- & Hr).
      exists z, r. repeat split; assumption.
    - intros (z & r & Hz & Hm & Hr & ->). right.
      exists z. split; [apply filter_In; split; assumption |].
      unfold keysOf. apply in_map_iff. exists r. split; [reflexivity | exact Hr]. }
  split; [| split; [| exact Hlist]].
  - intros z r Hz Hm Hr.
    destruct (proj2 (Hkeys (ResourceKey (mkR53 z r)))) as [t Ht].
    { exists z, r. repeat split; assumption. }
    cbn [withWrites firstSeen NewSet]. rewrite Ht.
    apply applyWrites_lookup_Some in Ht as [Ht | Ht].
    + rewrite lookup_empty in Ht. discriminate.
    + apply zoneWrites_readings in Ht as [n ->]. exists n. reflexivity.
  - intros k Hk. apply Hkeys. exact Hk.
Qed.

Lemma ListAll_records_all_records_of_managed_zones_witness :
  exists s,
    ListAll Z.of_nat (sampleOptions false) healthyProvider
      = Done (Some s, None,
              [Log Info (MsgUnknownZone "example.com.");
               ListRecords (Some "Z1"); ListRecords (Some "Z3")]) /\
    (exists n,
       firstSeen s !! ResourceKey (mkR53 managedZone1 wwwRecord)
       = Some (Z.of_nat n)) /\
    firstSeen s !! ResourceKey (mkR53 foreignZone apiRecord) = None.
Proof.
  set (s := withWrites
              (zoneWrites Z.of_nat healthyProvider (zonesOf healthyProvider) 0)
              (NewSet 0)).
  assert (Hrun : ListAll Z.of_nat (sampleOptions false) healthyProvider
                 = Done (Some s, None,
                         [Log Info (MsgUnknownZone "example.com.");
                          ListRecords (Some "Z1"); ListRecords (Some "Z3")]))
    by reflexivity.
  exists s. split; [exact Hrun |]. split.
  - apply (proj1 (ListAll_records_all_records_of_managed_zones
                    Z.of_nat (sampleOptions false) healthyProvider _ _ Hrun)
             managedZone1 wwwRecord).
    + right. left. reflexivity.
    + reflexivity.
    + right. left. reflexivity.
  - vm_compute. reflexivity.
Defined.

(** C10: [ListAll] hands back the set together with the error.  A run of
    [ListAll] that returns, returns a set, with the wrapped enumeration
    failure if there is one; the set holds the writes made before the
    failure, that is an entry for every record set that the reached zones
    delivered, those of the pages of the failing zone that arrived
    included, and nothing else.  And every run returns, over zones that
    carry an id, as the zones of the data model do (the error of a failed
    record listing is worded with the zone's id, read through the
    pointer). *)
Theorem ListAll_returns_the_partial_inventory
    (now : nat -> Z) (opts : Options) (svc : Route53) :
  (forall set err trace,
     ListAll now opts svc = Done (set, err, trace) ->
     exists s,
       set = Some s /\ err = inventoryError opts svc /\
       (sweepError svc <> None -> err <> None) /\
       firstSeen s = applyWrites (zoneWrites now svc (zonesOf svc) 0) ∅ /\
       (forall k,
          is_Some (firstSeen s !! k) <->
          In k (flat_map (keysOf svc) (reached svc (zonesOf svc))))) /\
  (zonesCarryId svc ->
   exists s trace,
     ListAll now opts svc = Done (Some s, inventoryError opts svc, trace)).
Proof.
  destruct (ListAll_run now opts svc) as (trace & Hrun & _).
  split.
  - intros set err trace' Hdone. rewrite Hdone in Hrun.
    exists (withWrites (zoneWrites now svc (zonesOf svc) 0) (NewSet 0)).
    assert (Hval : set = Some (withWrites
                                 (zoneWrites now svc (zonesOf svc) 0)
                                 (NewSet 0))
                   /\ err = inventoryError opts svc).
    { destruct (firstFailure svc (zonesOf svc)) as [[z e] |];
        [destruct (zId z); [| discriminate Hrun] |];
        injection Hrun as -> -> _; split; reflexivity. }
    destruct Hval as [-> ->]. split; [reflexivity |]. split; [reflexivity |].
    split; [| split].
    + unfold sweepError, inventoryError.
      destruct (firstFailure svc (zonesOf svc)) as [[z e] |]; [discriminate |].
      destruct (failure (ListHostedZones svc)); [discriminate | auto].
    + reflexivity.
    + intros k. cbn [withWrites firstSeen NewSet].
      rewrite applyWrites_lookup, zoneWrites_keys, lookup_empty.
      split; [intros [[x Hx] | H]; [discriminate | exact H] | auto].
  - intros Hid.
    exists (withWrites (zoneWrites now svc (zonesOf svc) 0) (NewSet 0)), trace.
    rewrite Hrun.
    destruct (firstFailure svc (zonesOf svc)) as [[z e] |] eqn:Hfirst;
      [| reflexivity].
    pose proof (Hid z (firstFailure_In _ _ _ _ Hfirst)) as Hz.
    destruct (zId z); [reflexivity | congruence].
Qed.

Lemma ListAll_returns_the_partial_inventory_witness :
  exists s trace,
    ListAll Z.of_nat (sampleOptions false) failingProvider
      = Done (Some s,
              Some (Wrapped throttled
                      "couldn't describe route53 resources for %q in %q zone %q"
                      ["account"; "us-east-1"; "Z2"]),
              trace) /\
    is_Some (firstSeen s !! ResourceKey (mkR53 managedZone1 wwwRecord)) /\
    is_Some (firstSeen s !! ResourceKey (mkR53 managedZone2 apiRecord)) /\
    firstSeen s !! ResourceKey (mkR53 managedZone3 apiRecord) = None.
Proof.
  destruct (ListAll_returns_the_partial_inventory
              Z.of_nat (sampleOptions false) failingProvider)
    as [Hret Hruns].
  destruct Hruns as (s & trace & Hrun).
  { intros z Hz. cbn in Hz.
    destruct Hz as [<- | [<- | [<- | [<- | []]]]]; discriminate. }
  destruct (Hret _ _ _ Hrun) as (s' & [= <-] & _ & _ & Hmap & Hkeys).
  exists s, trace. split; [exact Hrun |]. split; [| split].
  - apply Hkeys. vm_compute. auto.
  - apply Hkeys. vm_compute. auto 6.
  - rewrite Hmap. vm_compute. reflexivity.
Defined.

(** Without the hypothesis on the ids the run can end in a panic: the
    listing of a managed zone without an id fails, and the error is worded
    with [*z.Id]. *)
Example ListAll_panics_without_zone_id :
  ListAll Z.of_nat (sampleOptions false) providerOfZoneWithoutId = Panic.
Proof. reflexivity. Qed.

(** ** The chunks of a sweep as written *)

(** C5: the claim, that a zone with N eligible deletion candidates gets
    ceil(N/1000) change requests, fails on the code.  In a sweep that is
    not a dry run, over a managed zone with one record that [Mark] finds
    old enough, there is one candidate and [MarkAndSweep] issues no change
    request, where one request with one change is due: the candidate never
    reaches the loop that chunks, since the lister returns an empty
    slice. *)
Theorem sweep_issues_no_request_for_its_candidate :
  exists trace,
    MarkAndSweep markAlways (sampleOptions false) oneZoneProvider (NewSet 0)
      = Done (None, NewSet 0, trace) /\
    length (candidates trace) = 1 /\
    ceilDiv 1 1000 = 1 /\
    length (requests trace) = 0.
Proof.
  eexists. split; [vm_compute; reflexivity |].
  repeat split; vm_compute; reflexivity.
Qed.

(** * More of the handler *)

(** ** What the record filter accepts *)

(** X1: [resourceRecordSetIsManaged] answers true exactly for the record
    sets whose type, read through [aws.StringValue], is "A" and whose name
    begins with a string of the language of one of the four expressions of
    [managedNameRegexes]; the rest of the name is free. *)
Theorem resourceRecordSetIsManaged_language (rrs : ResourceRecordSet) :
  fst (resourceRecordSetIsManaged rrs) = true <->
  aws_StringValue (rType rrs) = "A" /\
  exists re p q,
    In re managedNameRegexes /\
    aws_StringValue (rName rrs) = p +:+ q /\ matches re p.
Proof. exact (managedRecord_iff rrs). Qed.

Lemma MatchString_nullable (re : regex) (s : string) :
  nullable re = true -> MatchString re s = true.
Proof. intros H. destruct s; cbn [MatchString]; rewrite H; reflexivity. Qed.

Lemma MatchString_extend (s : string) :
  forall re t, MatchString re s = true -> MatchString re (s +:+ t) = true.
Proof.
  induction s as [| c s IH]; intros re t; cbn [MatchString].
  - rewrite orb_false_r, append_nil_l. apply MatchString_nullable.
  - rewrite append_cons. cbn [MatchString].
    intros H. apply orb_true_iff in H as [H | H].
    + rewrite H. reflexivity.
    + rewrite (IH _ t H). apply orb_true_r.
Qed.

(** X2: the expressions are not anchored at the end, so a managed name
    stays managed whatever is appended to it: the filter does not look at
    the domain the name ends with. *)
Theorem managed_name_extends (name suffix : string) (ty : option string)
    (rest rest' : list string) :
  fst (resourceRecordSetIsManaged (mkRRS (Some name) ty rest)) = true ->
  fst (resourceRecordSetIsManaged (mkRRS (Some (name +:+ suffix)) ty rest'))
  = true.
Proof.
  unfold resourceRecordSetIsManaged. cbn [rType rName aws_StringValue].
  destruct (negb (String.eqb "A" (aws_StringValue ty))); [discriminate |].
  destruct (existsb (fun re => MatchString re name) managedNameRegexes)
    eqn:Hex; [intros _ | discriminate].
  apply existsb_exists in Hex as (re & Hin & Hm).
  assert (Hex' : existsb (fun re => MatchString re (name +:+ suffix))
                         managedNameRegexes = true).
  { apply existsb_exists. exists re. split; [exact Hin |].
    apply MatchString_extend, Hm. }
  rewrite Hex'. reflexivity.
Qed.

Lemma managed_name_extends_witness :
  fst (resourceRecordSetIsManaged
         (mkRRS (Some ("api.e2e-71149fffac-dba53." +:+ "example.org."))
                (Some "A") [])) = true.
Proof.
  apply (managed_name_extends "api.e2e-71149fffac-dba53." "example.org."
           (Some "A") [] []).
  vm_compute. reflexivity.
Defined.

Lemma matches_literal (w s : string) : matches (lit w) s -> s = w.
Proof.
  revert s. induction w as [| c w IH]; intros s H; cbn [lit] in H.
  - inversion H. reflexivity.
  - inversion H as [| | | | | r1 r2 s1 s2 H1 H2 | |]; subst.
    inversion H1; subst. rewrite append_cons, append_nil_l.
    f_equal. apply IH, H2.
Qed.

Lemma append_assoc (s1 s2 s3 : string) :
  (s1 +:+ s2) +:+ s3 = s1 +:+ (s2 +:+ s3).
Proof.
  induction s1 as [| c s1 IH]; [reflexivity |].
  rewrite !append_cons, IH. reflexivity.
Qed.

Lemma matches_cat_lit (w : string) (r : regex) (p : string) :
  matches (ReCat (lit w) r) p -> exists p', p = w +:+ p'.
Proof.
  intros H. inversion H as [| | | | | r1 r2 s1 s2 H1 H2 | |]; subst.
  apply matches_literal in H1 as ->. exists s2. reflexivity.
Qed.

(** X3: a managed name begins with "api." or with "etcd-": a record set
    whose name begins otherwise, or has no name, is never a deletion
    candidate, whatever its type and zone. *)
Theorem managed_name_begins_with_api_or_etcd (rrs : ResourceRecordSet) :
  fst (resourceRecordSetIsManaged rrs) = true ->
  exists name tail,
    rName rrs = Some name /\
    (name = "api." +:+ tail \/ name = "etcd-" +:+ tail).
Proof.
  intros Hm.
  destruct (managedRecord_has_name rrs Hm) as [name Hname].
  apply managedRecord_iff in Hm as (_ & re & p & q & Hin & Hs & Hp).
  rewrite Hname in Hs. cbn [aws_StringValue] in Hs. exists name.
  destruct Hin as [<- | [<- | [<- | [<- | []]]]];
    apply matches_cat_lit in Hp as [p' ->]; rewrite append_assoc in Hs.
  - exists (p' +:+ q). split; [exact Hname | left; exact Hs].
  - exists ("internal." +:+ p' +:+ q). split; [exact Hname | left; exact Hs].
  - exists (p' +:+ q). split; [exact Hname | right; exact Hs].
  - exists ("events-" +:+ p' +:+ q). split; [exact Hname | right; exact Hs].
Qed.

Lemma managed_name_begins_with_api_or_etcd_witness :
  exists name tail,
    rName etcdRecord = Some name /\
    (name = "api." +:+ tail \/ name = "etcd-" +:+ tail).
Proof.
  apply (managed_name_begins_with_api_or_etcd etcdRecord).
  vm_compute. reflexivity.
Defined.

(** ** The lister, call by call *)

Lemma deletings_app (t1 t2 : list event) :
  deletings (t1 ++ t2) = deletings t1 ++ deletings t2.
Proof. apply omap_app. Qed.

Lemma resourceRecordSetIsManaged_no_deleting rrs :
  deletings (snd (resourceRecordSetIsManaged rrs)) = [].
Proof.
  unfold resourceRecordSetIsManaged.
  destruct (negb _); [reflexivity |].
  destruct (existsb _ _); reflexivity.
Qed.

Lemma markAll_app Mark set (os1 os2 : list route53ResourceRecordSet) :
  markAll Mark set (os1 ++ os2) = markAll Mark (markAll Mark set os1) os2.
Proof. apply foldl_app. Qed.

Lemma accepted_app Mark (os1 os2 : list route53ResourceRecordSet) :
  forall set,
    accepted Mark set (os1 ++ os2)
    = accepted Mark set os1 ++ accepted Mark (markAll Mark set os1) os2.
Proof.
  induction os1 as [| o os1 IH]; intros set; [reflexivity |].
  cbn [accepted app]. rewrite IH, app_assoc. reflexivity.
Qed.

Lemma tells_app Mark set os1 os2 new1 new2 :
  tells Mark set os1 new1 ->
  tells Mark (markAll Mark set os1) os2 new2 ->
  tells Mark set (os1 ++ os2) (new1 ++ new2).
Proof.
  intros (Hm1 & Hc1 & Hd1 & Hr1 & Hl1) (Hm2 & Hc2 & Hd2 & Hr2 & Hl2).
  unfold tells.
  rewrite marks_app, candidates_app, deletings_app, requests_app,
    listings_app, accepted_app, map_app.
  rewrite Hm1, Hm2, Hc1, Hc2, Hd1, Hd2, Hr1, Hr2, Hl1, Hl2.
  repeat split.
Qed.

Section ListerCalls.

Variable Mark :
  Set_ -> route53ResourceRecordSet -> option Z -> bool * Set_.

Lemma recordsBody_full (z : HostedZone) (rrs : ResourceRecordSet)
    (set : Set_) (evs : list event)
    (toDelete : list route53ResourceRecordSet) :
  exists new,
    recordsBody Mark z rrs (set, evs, toDelete)
      = Done (true,
              (markAll Mark set
                 (map (mkR53 z) (List.filter managedRecord [rrs])),
               evs ++ new, toDelete)) /\
    tells Mark set (map (mkR53 z) (List.filter managedRecord [rrs])) new.
Proof.
  unfold recordsBody, tells. cbn [List.filter].
  pose proof (resourceRecordSetIsManaged_onlyLogs rrs) as (Hr & Hm & Hl).
  pose proof (resourceRecordSetIsManaged_no_candidate rrs) as Hc.
  pose proof (resourceRecordSetIsManaged_no_deleting rrs) as Hd.
  pose proof (managedRecord_has_name rrs) as Hname.
  unfold managedRecord in *.
  destruct (resourceRecordSetIsManaged rrs) as [managed logs].
  cbn [fst snd] in *. destruct managed; cbn [negb map markAll foldl accepted].
  - destruct Hname as [name Hname]; [reflexivity |].
    destruct (Mark set (mkR53 z rrs) None) as [old set'] eqn:HMark.
    cbn [fst snd]. destruct old.
    + rewrite Hname. cbn [deref mbind outcome_bind].
      exists (logs ++ [Marked (mkR53 z rrs) true]
                   ++ [Log Warning (MsgDeleting (ARN (mkR53 z rrs)) name)]).
      rewrite !app_assoc. split; [reflexivity |].
      rewrite !marks_app, !candidates_app, !deletings_app, !requests_app,
        !listings_app, Hr, Hm, Hl, Hc, Hd.
      repeat split; try reflexivity.
      cbn [app map]. unfold deletingLine. cbn [obj]. rewrite Hname.
      reflexivity.
    + exists (logs ++ [Marked (mkR53 z rrs) false]).
      rewrite !app_assoc. split; [reflexivity |].
      rewrite !marks_app, !candidates_app, !deletings_app, !requests_app,
        !listings_app, Hr, Hm, Hl, Hc, Hd.
      repeat split.
  - exists logs. repeat split; assumption.
Qed.

Lemma recordsLoop_full (z : HostedZone) (rs : list ResourceRecordSet) :
  forall (set : Set_) (evs : list event)
         (toDelete : list route53ResourceRecordSet),
  exists new,
    forEach (recordsBody Mark z) rs (set, evs, toDelete)
      = Done (true,
              (markAll Mark set (map (mkR53 z) (List.filter managedRecord rs)),
               evs ++ new, toDelete)) /\
    tells Mark set (map (mkR53 z) (List.filter managedRecord rs)) new.
Proof.
  induction rs as [| rrs rs IH]; intros set evs toDelete.
  - exists []. rewrite app_nil_r. repeat split.
  - destruct (recordsBody_full z rrs set evs toDelete) as (new1 & Hrun & H1).
    destruct (IH (markAll Mark set
                    (map (mkR53 z) (List.filter managedRecord [rrs])))
                 (evs ++ new1) toDelete) as (new2 & Hrest & H2).
    exists (new1 ++ new2).
    change (rrs :: rs) with ([rrs] ++ rs).
    rewrite List.filter_app, map_app, markAll_app.
    split; [| apply tells_app; assumption].
    cbn [app forEach]. rewrite Hrun. cbn [mbind outcome_bind].
    rewrite Hrest, app_assoc. reflexivity.
Qed.

(** The pages of a record listing are gone through as one list. *)
Lemma recordsPages_concat (z : HostedZone)
    (ps : list (list ResourceRecordSet)) (err : option error) :
  forall st,
    eachPage (recordsPageFunc Mark z) ps err st
    = '(_, st') ← forEach (recordsBody Mark z) (concat ps) st;
      Done (err, st').
Proof.
  induction ps as [| p ps IH]; intros [[set evs] toDelete]; [reflexivity |].
  cbn [eachPage concat].
  assert (Hpage : recordsPageFunc Mark z p (set, evs, toDelete)
                  = '(_, st) ← forEach (recordsBody Mark z) p
                                       (set, evs, toDelete);
                    Done (true, st)) by reflexivity.
  rewrite Hpage, forEach_app.
  destruct (recordsLoop_full z p set evs toDelete) as (new & -> & _).
  cbn [mbind outcome_bind]. apply IH.
Qed.

Lemma lister_concat (svc : Route53) (z : HostedZone) (set : Set_) :
  route53ResourceRecordSetsForZone Mark svc z set
  = '(_, (set', evs, toDelete)) ←
      forEach (recordsBody Mark z) (recordsOf svc z)
              (set, [ListRecords (zId z)], []);
    match failure (ListResourceRecordSets svc (zId z)) with
    | Some e => Done ([], Some e, set', evs)
    | None => Done (toDelete, None, set', evs)
    end.
Proof.
  unfold route53ResourceRecordSetsForZone, listPages, recordsOf.
  rewrite recordsPages_concat.
  destruct (forEach _ _ _) as [[b [[set' evs] toDelete]] |]; reflexivity.
Qed.

Lemma lister_full (svc : Route53) (z : HostedZone) (set : Set_) :
  exists evs,
    route53ResourceRecordSetsForZone Mark svc z set
      = Done ([], failure (ListResourceRecordSets svc (zId z)),
              markAll Mark set (managedRecordsOf svc z),
              [ListRecords (zId z)] ++ evs) /\
    tells Mark set (managedRecordsOf svc z) evs.
Proof.
  rewrite lister_concat.
  destruct (recordsLoop_full z (recordsOf svc z) set [ListRecords (zId z)] [])
    as (new & -> & Htells).
  exists new. split; [| exact Htells].
  cbn [mbind outcome_bind]. destruct (failure _); reflexivity.
Qed.

End ListerCalls.

(** X4: [route53ResourceRecordSetsForZone] never panics.  It asks for the
    record sets of the zone once and calls [Mark] on the managed ones that
    are delivered, in the order of the listing and each call on the set the
    one before left, also when the listing ends in an error; it logs the
    "deleting" warning for exactly the resources [Mark] accepted, with
    their identity and name; it issues no change request and returns the
    error of the listing. *)
Theorem lister_calls_Mark_in_listing_order
    (Mark : Set_ -> route53ResourceRecordSet -> option Z -> bool * Set_)
    (svc : Route53) (z : HostedZone) (set : Set_) :
  exists toDelete evs,
    route53ResourceRecordSetsForZone Mark svc z set
      = Done (toDelete, failure (ListResourceRecordSets svc (zId z)),
              markAll Mark set (managedRecordsOf svc z), evs) /\
    listings evs = [zId z] /\
    marks evs = managedRecordsOf svc z /\
    candidates evs = accepted Mark set (managedRecordsOf svc z) /\
    deletings evs = map deletingLine (candidates evs) /\
    requests evs = [].
Proof.
  destruct (lister_full Mark svc z set)
    as (evs & Hrun & Hm & Hc & Hd & Hr & Hl).
  exists [], ([ListRecords (zId z)] ++ evs). split; [exact Hrun |].
  rewrite listings_app, marks_app, candidates_app, deletings_app,
    requests_app, Hm, Hc, Hd, Hr, Hl.
  repeat split.
Qed.

(** ** The sweep, call by call *)

Lemma zoneIsManaged_quiet (z : HostedZone) :
  candidates (snd (zoneIsManaged z)) = [] /\
  deletings (snd (zoneIsManaged z)) = [].
Proof. unfold zoneIsManaged. destruct (String.eqb _ _); split; reflexivity. Qed.

Lemma tellsZones_app Mark svc set zs1 zs2 new1 new2 :
  tellsZones Mark svc set zs1 new1 ->
  tellsZones Mark svc
    (markAll Mark set (flat_map (managedRecordsOf svc) zs1)) zs2 new2 ->
  tellsZones Mark svc set (zs1 ++ zs2) (new1 ++ new2).
Proof.
  intros (Hm1 & Hc1 & Hd1 & Hr1 & Hl1) (Hm2 & Hc2 & Hd2 & Hr2 & Hl2).
  unfold tellsZones. cbv zeta.
  rewrite marks_app, candidates_app, deletings_app, requests_app,
    listings_app, flat_map_app, accepted_app, !map_app.
  rewrite Hm1, Hm2, Hc1, Hc2, Hd1, Hd2, Hr1, Hr2, Hl1, Hl2.
  repeat split.
Qed.

Lemma reached_In (svc : Route53) (zs : list HostedZone) (z : HostedZone) :
  In z (reached svc zs) -> In z zs /\ managedZone z = true.
Proof.
  induction zs as [| z' zs IH]; [intros [] |].
  cbn [reached]. destruct (managedZone z') eqn:Hm.
  - destruct (failure (ListResourceRecordSets svc (zId z'))).
    + intros [<- | []]. split; [left; reflexivity | exact Hm].
    + intros [<- | Hin]; [split; [left; reflexivity | exact Hm] |].
      destruct (IH Hin). split; [right |]; assumption.
  - intros Hin. destruct (IH Hin). split; [right |]; assumption.
Qed.

Section SweepCalls.

Variable Mark :
  Set_ -> route53ResourceRecordSet -> option Z -> bool * Set_.
Variable opts : Options.
Variable svc : Route53.

Lemma zonesBody_full (z : HostedZone) (set : Set_) (trace : list event)
    (listError : option error) :
  exists new,
    zonesBody (route53ResourceRecordSetsForZone Mark svc) opts svc z
              (set, trace, listError)
      = Done (match firstFailure svc [z] with Some _ => false | None => true end,
              (markAll Mark set
                 (flat_map (managedRecordsOf svc) (reached svc [z])),
               trace ++ new,
               match firstFailure svc [z] with
               | Some (_, e) => Some e
               | None => listError
               end)) /\
    tellsZones Mark svc set (reached svc [z]) new.
Proof.
  unfold zonesBody, tellsZones. cbn [firstFailure reached].
  pose proof (zoneIsManaged_onlyLogs z) as (Hlr & Hlm & Hll).
  pose proof (zoneIsManaged_quiet z) as (Hlc & Hld).
  pose proof (managedZone_no_log z) as Hnolog.
  unfold managedZone in *.
  destruct (zoneIsManaged z) as [managed logs]. cbn [fst snd] in *.
  destruct managed; cbn [negb].
  - specialize (Hnolog eq_refl). injection Hnolog as ->.
    rewrite app_nil_r.
    destruct (lister_full Mark svc z set)
      as (evs & Hrun & Hm & Hc & Hd & Hr & Hl).
    rewrite Hrun. cbn [mbind outcome_bind].
    exists ([ListRecords (zId z)] ++ evs).
    assert (Hflat : flat_map (managedRecordsOf svc) [z]
                    = managedRecordsOf svc z) by apply app_nil_r.
    cbv zeta.
    destruct (failure (ListResourceRecordSets svc (zId z))) as [e |];
      rewrite Hflat;
      (split;
       [try destruct (DryRun opts); reflexivity
       | rewrite marks_app, candidates_app, deletings_app, requests_app,
           listings_app, Hm, Hc, Hd, Hr, Hl; repeat split]).
  - exists logs. cbn [flat_map markAll foldl accepted map].
    repeat split; assumption.
Qed.

Lemma zonesLoop_full (zs : list HostedZone) :
  forall (set : Set_) (trace : list event) (listError : option error),
  exists new,
    forEach (zonesBody (route53ResourceRecordSetsForZone Mark svc) opts svc)
            zs (set, trace, listError)
      = Done (match firstFailure svc zs with Some _ => false | None => true end,
              (markAll Mark set
                 (flat_map (managedRecordsOf svc) (reached svc zs)),
               trace ++ new,
               match firstFailure svc zs with
               | Some (_, e) => Some e
               | None => listError
               end)) /\
    tellsZones Mark svc set (reached svc zs) new.
Proof.
  induction zs as [| z zs IH]; intros set trace listError.
  - exists []. rewrite app_nil_r. repeat split.
  - destruct (zonesBody_full z set trace listError) as (new1 & Hrun & H1).
    cbn [forEach]. rewrite Hrun. cbn [mbind outcome_bind].
    cbn [firstFailure reached] in *.
    destruct (managedZone z).
    + destruct (failure (ListResourceRecordSets svc (zId z))) as [e |].
      * exists new1. split; [reflexivity | exact H1].
      * destruct (IH (markAll Mark set (flat_map (managedRecordsOf svc) [z]))
                     (trace ++ new1) listError) as (new2 & Hrest & H2).
        exists (new1 ++ new2). rewrite Hrest, app_assoc.
        change (z :: reached svc zs) with ([z] ++ reached svc zs).
        rewrite flat_map_app, markAll_app.
        split; [reflexivity | apply tellsZones_app; assumption].
    + destruct (IH (markAll Mark set (flat_map (managedRecordsOf svc) []))
                   (trace ++ new1) listError) as (new2 & Hrest & H2).
      exists (new1 ++ new2). rewrite Hrest, app_assoc.
      split; [reflexivity |].
      change (reached svc zs) with ([] ++ reached svc zs).
      apply tellsZones_app; assumption.
Qed.

Lemma MarkAndSweep_full (set : Set_) :
  exists trace,
    MarkAndSweep Mark opts svc set
      = Done (sweepError svc,
              markAll Mark set
                (flat_map (managedRecordsOf svc) (reached svc (zonesOf svc))),
              trace) /\
    tellsZones Mark svc set (reached svc (zonesOf svc)) trace.
Proof.
  unfold MarkAndSweep, sweep, listPages.
  change (pageFunc ?f opts svc) with (forEach (zonesBody f opts svc)).
  rewrite eachPage_forEach. fold (zonesOf svc).
  destruct (zonesLoop_full (zonesOf svc) set [] None)
    as (new & Hrun & Htells).
  rewrite Hrun. unfold sweepError. exists new. split; [| exact Htells].
  destruct (firstFailure svc (zonesOf svc)) as [[z e] |]; reflexivity.
Qed.

End SweepCalls.

(** X5: [MarkAndSweep] never panics, whatever the provider and the tracker
    answer.  The tracker it leaves is the one the [Mark] calls built, one
    after the other over the managed records of the reached zones, in the
    order of the listings, and nothing else writes to it; the "deleting"
    warnings are those of the resources [Mark] accepted; the error is the
    enumeration failure. *)
Theorem MarkAndSweep_threads_the_tracker
    (Mark : Set_ -> route53ResourceRecordSet -> option Z -> bool * Set_)
    (opts : Options) (svc : Route53) (set : Set_) :
  let os := flat_map (managedRecordsOf svc) (reached svc (zonesOf svc)) in
  exists trace,
    MarkAndSweep Mark opts svc set
      = Done (sweepError svc, markAll Mark set os, trace) /\
    marks trace = os /\
    candidates trace = accepted Mark set os /\
    deletings trace = map deletingLine (candidates trace).
Proof.
  cbv zeta.
  destruct (MarkAndSweep_full Mark opts svc set)
    as (trace & Hrun & Hm & Hc & Hd & _).
  exists trace. cbv zeta in Hm, Hc, Hd. rewrite Hc. repeat split; assumption.
Qed.

(** X6: as the code is written, the options make no difference to what
    [MarkAndSweep] does: with [DryRun] set or not, it returns the same
    error, leaves the same tracker, makes the same listings and the same
    [Mark] calls with the same answers, and issues no change request. *)
Theorem MarkAndSweep_whatever_the_options
    (Mark : Set_ -> route53ResourceRecordSet -> option Z -> bool * Set_)
    (opts opts' : Options) (svc : Route53) (set : Set_) :
  exists err set' trace trace',
    MarkAndSweep Mark opts svc set = Done (err, set', trace) /\
    MarkAndSweep Mark opts' svc set = Done (err, set', trace') /\
    listings trace = listings trace' /\
    marks trace = marks trace' /\
    candidates trace = candidates trace' /\
    requests trace = [] /\ requests trace' = [].
Proof.
  destruct (MarkAndSweep_full Mark opts svc set)
    as (trace & Hrun & Hm & Hc & _ & Hr & Hl).
  destruct (MarkAndSweep_full Mark opts' svc set)
    as (trace' & Hrun' & Hm' & Hc' & _ & Hr' & Hl').
  eexists _, _, trace, trace'.
  split; [exact Hrun |]. split; [exact Hrun' |].
  rewrite Hl, Hl', Hm, Hm', Hc, Hc'. repeat split; assumption.
Qed.

(** X7: [MarkAndSweep] stays inside what the two filters allow.  Every
    resource it calls [Mark] on is a record set of type "A" that the
    listing of a zone delivered, the zone passing [zoneIsManaged] and the
    record set [resourceRecordSetIsManaged]; and it asks for the record
    sets of managed zones only. *)
Theorem MarkAndSweep_touches_managed_only
    (Mark : Set_ -> route53ResourceRecordSet -> option Z -> bool * Set_)
    (opts : Options) (svc : Route53) (set : Set_) :
  exists err set' trace,
    MarkAndSweep Mark opts svc set = Done (err, set', trace) /\
    (forall o,
       In o (marks trace) ->
       In (zone o) (zonesOf svc) /\
       fst (zoneIsManaged (zone o)) = true /\
       In (obj o) (recordsOf svc (zone o)) /\
       fst (resourceRecordSetIsManaged (obj o)) = true /\
       aws_StringValue (rType (obj o)) = "A") /\
    (forall id,
       In id (listings trace) ->
       exists z,
         In z (zonesOf svc) /\ fst (zoneIsManaged z) = true /\ zId z = id).
Proof.
  destruct (MarkAndSweep_full Mark opts svc set)
    as (trace & Hrun & Hm & _ & _ & _ & Hl).
  eexists _, _, trace. split; [exact Hrun |]. cbv zeta in Hm. split.
  - intros o Ho. rewrite Hm in Ho.
    apply in_flat_map in Ho as (z & Hz & Ho).
    apply reached_In in Hz as [Hz Hmz].
    unfold managedRecordsOf in Ho.
    apply in_map_iff in Ho as (r & <- & Hr).
    apply filter_In in Hr as [Hr Hmr]. cbn [zone obj].
    repeat split; try assumption.
    apply managedRecord_iff in Hmr as [Hty _]. exact Hty.
  - intros id Hid. rewrite Hl in Hid.
    apply in_map_iff in Hid as (z & <- & Hz).
    apply reached_In in Hz as [Hz Hmz]. exists z. repeat split; assumption.
Qed.

(** X8: when the zone listing itself fails, after the pages it delivered,
    and no record listing does, [MarkAndSweep] has gone through every zone
    delivered, calling [Mark] on the managed records of all the managed
    ones, and returns the error of the zone listing as it is. *)
Theorem MarkAndSweep_zone_listing_failure
    (Mark : Set_ -> route53ResourceRecordSet -> option Z -> bool * Set_)
    (opts : Options) (svc : Route53) (set : Set_) (e : error) :
  firstFailure svc (zonesOf svc) = None ->
  failure (ListHostedZones svc) = Some e ->
  exists set' trace,
    MarkAndSweep Mark opts svc set = Done (Some e, set', trace) /\
    listings trace = map zId (List.filter managedZone (zonesOf svc)) /\
    marks trace
      = flat_map (managedRecordsOf svc)
                 (List.filter managedZone (zonesOf svc)).
Proof.
  intros Hfirst Hzones.
  destruct (MarkAndSweep_full Mark opts svc set)
    as (trace & Hrun & Hm & _ & _ & _ & Hl).
  cbv zeta in Hm. unfold sweepError in Hrun.
  rewrite Hfirst, Hzones in Hrun.
  rewrite (firstFailure_none_reached _ _ Hfirst) in Hm, Hl.
  eexists _, trace. repeat split; eassumption.
Qed.

Lemma MarkAndSweep_zone_listing_failure_witness :
  exists set' trace,
    MarkAndSweep markAlways (sampleOptions false) zoneListingFails (NewSet 0)
      = Done (Some throttled, set', trace) /\
    listings trace = [Some "Z1"; Some "Z3"].
Proof.
  destruct (MarkAndSweep_zone_listing_failure
              markAlways (sampleOptions false) zoneListingFails (NewSet 0)
              throttled eq_refl eq_refl)
    as (set' & trace & Hrun & Hl & _).
  exists set', trace. split; [exact Hrun |]. rewrite Hl. reflexivity.
Defined.

(** X9: when the zone listing fails and no record listing does, [ListAll]
    returns the inventory of every zone delivered together with the error
    of the zone listing, wrapped in the "instance profiles" message with
    the account and the region. *)
Theorem ListAll_zone_listing_failure
    (now : nat -> Z) (opts : Options) (svc : Route53) (e : error) :
  firstFailure svc (zonesOf svc) = None ->
  failure (ListHostedZones svc) = Some e ->
  exists s trace,
    ListAll now opts svc
      = Done (Some s,
              Some (Wrapped e
                      "couldn't describe route53 instance profiles for %q in %q"
                      [Account opts; Region opts]),
              trace) /\
    (forall k,
       is_Some (firstSeen s !! k) <->
       In k (flat_map (keysOf svc) (List.filter managedZone (zonesOf svc)))).
Proof.
  intros Hfirst Hzones.
  destruct (ListAll_run now opts svc) as (trace & Hrun & _).
  unfold inventoryError in Hrun. rewrite Hfirst, Hzones in Hrun.
  eexists _, trace. split; [exact Hrun |].
  intros k. cbn [withWrites firstSeen NewSet].
  rewrite applyWrites_lookup, zoneWrites_keys, lookup_empty,
    (firstFailure_none_reached _ _ Hfirst).
  split; [intros [[x Hx] | H]; [discriminate | exact H] | auto].
Qed.

Lemma ListAll_zone_listing_failure_witness :
  exists s trace,
    ListAll Z.of_nat (sampleOptions false) zoneListingFails
      = Done (Some s,
              Some (Wrapped throttled
                      "couldn't describe route53 instance profiles for %q in %q"
                      ["account"; "us-east-1"]),
              trace) /\
    is_Some (firstSeen s !! ResourceKey (mkR53 managedZone3 etcdRecord)).
Proof.
  destruct (ListAll_zone_listing_failure
              Z.of_nat (sampleOptions false) zoneListingFails throttled
              eq_refl eq_refl)
    as (s & trace & Hrun & Hkeys).
  exists s, trace. split; [exact Hrun |].
  apply Hkeys. vm_compute. auto 8.
Defined.

(** ** Pages *)

Section Repagination.

Variable Mark :
  Set_ -> route53ResourceRecordSet -> option Z -> bool * Set_.
Variable opts : Options.
Variables svc svc' : Route53.
Hypothesis Hsame : sameListings svc svc'.

Lemma lister_sameListings (z : HostedZone) (set : Set_) :
  route53ResourceRecordSetsForZone Mark svc z set
  = route53ResourceRecordSetsForZone Mark svc' z set.
Proof.
  destruct Hsame as (_ & _ & Hrecords).
  destruct (Hrecords (zId z)) as [Hpages Hfail].
  rewrite !lister_concat. unfold recordsOf. rewrite Hpages, Hfail.
  reflexivity.
Qed.

Lemma zonesBody_sameListings (z : HostedZone) (st : sweepState) :
  zonesBody (route53ResourceRecordSetsForZone Mark svc) opts svc z st
  = zonesBody (route53ResourceRecordSetsForZone Mark svc') opts svc' z st.
Proof.
  unfold zonesBody. destruct st as [[set trace] listError].
  destruct (zoneIsManaged z) as [managed logs].
  destruct (negb managed); [reflexivity |].
  rewrite lister_sameListings.
  destruct (lister_full Mark svc' z set) as (evs & -> & _).
  cbn [mbind outcome_bind].
  destruct (failure (ListResourceRecordSets svc' (zId z))); [reflexivity |].
  destruct (DryRun opts); reflexivity.
Qed.

Lemma MarkAndSweep_sameListings (set : Set_) :
  MarkAndSweep Mark opts svc set = MarkAndSweep Mark opts svc' set.
Proof.
  unfold MarkAndSweep, sweep, listPages.
  change (pageFunc ?f opts ?s) with (forEach (zonesBody f opts s)).
  rewrite !eachPage_forEach.
  destruct Hsame as (Hzones & Hfail & _).
  fold (zonesOf svc) (zonesOf svc'). rewrite Hzones, Hfail.
  rewrite (forEach_ext _ _ _ _ zonesBody_sameListings). reflexivity.
Qed.

End Repagination.

(** X10: [MarkAndSweep] does not depend on how the provider cuts its
    answers into pages: over two providers that deliver the same zones
    and, for each zone, the same record sets in the same order, with the
    same failures, it returns the same error and leaves the same tracker
    and the same trace. *)
Theorem MarkAndSweep_whatever_the_pages
    (Mark : Set_ -> route53ResourceRecordSet -> option Z -> bool * Set_)
    (opts : Options) (svc svc' : Route53) (set : Set_) :
  sameListings svc svc' ->
  MarkAndSweep Mark opts svc set = MarkAndSweep Mark opts svc' set.
Proof. intros Hsame. apply MarkAndSweep_sameListings, Hsame. Qed.

Lemma MarkAndSweep_whatever_the_pages_witness :
  MarkAndSweep markAlways (sampleOptions false) healthyProvider (NewSet 0)
  = MarkAndSweep markAlways (sampleOptions false) healthyProviderOnePage
                 (NewSet 0).
Proof.
  apply MarkAndSweep_whatever_the_pages.
  split; [reflexivity |]. split; [reflexivity |].
  intros id. cbn [healthyProvider healthyProviderOnePage ListResourceRecordSets].
  destruct (decide (id = Some "Z9")); split; reflexivity.
Defined.

(** ** The change requests of a sweep *)

Lemma requestForManagedZone_mono (svc : Route53)
    (zs zs' : list HostedZone) (reqs : list ChangeResourceRecordSetsInput) :
  (forall z, In z zs -> In z zs') ->
  Forall (requestForManagedZone svc zs) reqs ->
  Forall (requestForManagedZone svc zs') reqs.
Proof.
  intros Hsub Hall. eapply Forall_impl; [exact Hall |].
  intros req (z & Hin & H). exists z. split; [apply Hsub, Hin | exact H].
Qed.

Section SweepRequests.

Variable forZone :
  HostedZone -> Set_ ->
  outcome (list route53ResourceRecordSet * option error * Set_ * list event).
Variable opts : Options.
Variable svc : Route53.
Hypothesis Henum : enumerates svc forZone.

Lemma zonesBody_requests (z : HostedZone) (set : Set_) (trace : list event)
    (listError : option error) :
  exists continue set' new listError',
    zonesBody forZone opts svc z (set, trace, listError)
      = Done (continue, (set', trace ++ new, listError')) /\
    Forall (requestForManagedZone svc [z]) (requests new).
Proof.
  unfold zonesBody.
  pose proof (zoneIsManaged_onlyLogs z) as (Hlr & _ & _).
  pose proof (managedZone_no_log z) as Hnolog.
  unfold managedZone in Hnolog.
  destruct (zoneIsManaged z) as [managed logs] eqn:Hz. cbn [fst snd] in *.
  destruct managed; cbn [negb].
  - specialize (Hnolog eq_refl). injection Hnolog as ->.
    rewrite app_nil_r.
    destruct (Henum z set) as (toDelete & set1 & evs & Hrun & _ & Hr & _).
    rewrite Hrun. cbn [mbind outcome_bind].
    destruct (failure (ListResourceRecordSets svc (zId z))) as [e |] eqn:Hf.
    + exists false, set1, evs, (Some e). split; [reflexivity |].
      rewrite Hr. constructor.
    + destruct (DryRun opts).
      * exists true, set1, evs, listError. split; [reflexivity |].
        rewrite Hr. constructor.
      * set (changes := map (fun rrs => mkChange ChangeActionDelete (obj rrs))
                            toDelete).
        destruct (deleteChunks_run svc z (length changes) changes
                    (trace ++ evs) (le_n _))
          as (new & Hdel & _ & _ & _ & Hwf & _).
        exists true, set1, (evs ++ new), listError.
        rewrite Hdel, app_assoc. split; [reflexivity |].
        rewrite requests_app, Hr. cbn [app].
        eapply Forall_impl; [exact Hwf |].
        intros req Hreq. exists z.
        split; [left; reflexivity |].
        split; [unfold managedZone; rewrite Hz; reflexivity |].
        split; [exact Hf | exact Hreq].
  - exists true, set, logs, listError. split; [reflexivity |].
    rewrite Hlr. constructor.
Qed.

Lemma zonesLoop_requests (zs : list HostedZone) :
  forall (set : Set_) (trace : list event) (listError : option error),
  exists continue set' new listError',
    forEach (zonesBody forZone opts svc) zs (set, trace, listError)
      = Done (continue, (set', trace ++ new, listError')) /\
    Forall (requestForManagedZone svc zs) (requests new).
Proof.
  induction zs as [| z zs IH]; intros set trace listError.
  - exists true, set, [], listError. rewrite app_nil_r.
    split; [reflexivity | constructor].
  - destruct (zonesBody_requests z set trace listError)
      as (continue1 & set1 & new1 & listError1 & Hrun & Hreqs1).
    apply (requestForManagedZone_mono svc [z] (z :: zs)) in Hreqs1;
      [| intros x [<- | []]; left; reflexivity].
    cbn [forEach]. rewrite Hrun. cbn [mbind outcome_bind].
    destruct continue1.
    + destruct (IH set1 (trace ++ new1) listError1)
        as (continue & set2 & new2 & listError2 & Hrest & Hreqs2).
      exists continue, set2, (new1 ++ new2), listError2.
      rewrite Hrest, app_assoc. split; [reflexivity |].
      rewrite requests_app. apply Forall_app. split; [exact Hreqs1 |].
      apply (requestForManagedZone_mono svc zs); [| exact Hreqs2].
      intros x Hx. right. exact Hx.
    + exists false, set1, new1, listError1. split; [reflexivity | exact Hreqs1].
Qed.

Lemma sweep_requests (set : Set_) :
  exists err set' trace,
    sweep forZone opts svc set = Done (err, set', trace) /\
    Forall (requestForManagedZone svc (zonesOf svc)) (requests trace).
Proof.
  unfold sweep, listPages.
  change (pageFunc forZone opts svc) with (forEach (zonesBody forZone opts svc)).
  rewrite eachPage_forEach. fold (zonesOf svc).
  destruct (zonesLoop_requests (zonesOf svc) set [] None)
    as (continue & set' & new & listError' & Hrun & Hreqs).
  rewrite Hrun.
  destruct continue, listError'; cbn [mbind outcome_bind];
    eexists _, set', new; (split; [reflexivity | exact Hreqs]).
Qed.

End SweepRequests.

(** X11: whatever candidates the per-zone lister returns, every change
    request the sweep issues is for the id of a managed zone that the zone
    listing delivered and whose record listing succeeded, and carries at
    least one and at most 1000 changes: no request goes out for a zone
    that [zoneIsManaged] rejects or whose listing failed, and no empty
    batch is ever sent. *)
Theorem sweep_requests_are_for_managed_zones
    (forZone : HostedZone -> Set_ ->
               outcome (list route53ResourceRecordSet * option error
                        * Set_ * list event))
    (opts : Options) (svc : Route53) (set : Set_) :
  enumerates svc forZone ->
  exists err set' trace,
    sweep forZone opts svc set = Done (err, set', trace) /\
    Forall (fun req =>
              exists z,
                In z (zonesOf svc) /\ fst (zoneIsManaged z) = true /\
                failure (ListResourceRecordSets svc (zId z)) = None /\
                HostedZoneId req = zId z /\
                0 < length (Changes req) /\ length (Changes req) <= 1000)
           (requests trace).
Proof.
  intros Henum.
  destruct (sweep_requests forZone opts svc Henum set)
    as (err & set' & trace & Hrun & Hreqs).
  exists err, set', trace. split; [exact Hrun |].
  eapply Forall_impl; [exact Hreqs |].
  intros req (z & Hin & Hm & Hf & Hid & Hpos & Hle).
  exists z. repeat split; assumption.
Qed.

Lemma sweep_requests_are_for_managed_zones_witness :
  exists err set' trace,
    sweep (route53ResourceRecordSetsForZone_spec markAlways bulkProvider)
          (sampleOptions false) bulkProvider (NewSet 0)
      = Done (err, set', trace) /\
    Forall (fun req =>
              exists z,
                In z (zonesOf bulkProvider) /\
                fst (zoneIsManaged z) = true /\
                failure (ListResourceRecordSets bulkProvider (zId z)) = None /\
                HostedZoneId req = zId z /\
                0 < length (Changes req) /\ length (Changes req) <= 1000)
           (requests trace).
Proof.
  exact (sweep_requests_are_for_managed_zones
           (route53ResourceRecordSetsForZone_spec markAlways bulkProvider)
           (sampleOptions false) bulkProvider (NewSet 0)
           (lister_spec_enumerates markAlways bulkProvider)).
Defined.

(** ** The identity of a resource *)

Lemma split_at_colon (a : string) :
  forall a' t t',
    noColon a = true -> noColon a' = true ->
    a +:+ String ":" t = a' +:+ String ":" t' -> a = a' /\ t = t'.
Proof.
  induction a as [| c a IH]; intros [| c' a'] t t' Ha Ha';
    rewrite ?append_nil_l, ?append_cons; intros Heq.
  - injection Heq as ->. split; reflexivity.
  - injection Heq as <- _. cbn in Ha'. discriminate.
  - injection Heq as -> _. cbn in Ha. discriminate.
  - injection Heq as -> Heq.
    cbn [noColon] in Ha, Ha'.
    apply andb_true_iff in Ha as [_ Ha]. apply andb_true_iff in Ha' as [_ Ha'].
    destruct (IH a' t t' Ha Ha' Heq) as [-> ->]. split; reflexivity.
Qed.

(** X13: the identity tells the three parts apart as long as the zone id
    and the record type hold no colon: two resources with the same [ARN]
    then have the same zone id, the same record type and the same name. *)
Theorem ARN_tells_resources_apart (o1 o2 : route53ResourceRecordSet) :
  noColon (idOf o1) = true -> noColon (idOf o2) = true ->
  noColon (typeOf o1) = true -> noColon (typeOf o2) = true ->
  ARN o1 = ARN o2 ->
  idOf o1 = idOf o2 /\ typeOf o1 = typeOf o2 /\ nameOf o1 = nameOf o2.
Proof.
  unfold ARN. fold (idOf o1) (idOf o2) (typeOf o1) (typeOf o2)
    (nameOf o1) (nameOf o2).
  intros Hid1 Hid2 Hty1 Hty2 Heq.
  apply String.app_inj in Heq.
  change ("::" +:+ ?x) with (String ":" (String ":" x)) in Heq.
  apply split_at_colon in Heq as [Hid Heq]; [| assumption | assumption].
  injection Heq as Heq.
  change ("::" +:+ ?x) with (String ":" (String ":" x)) in Heq.
  apply split_at_colon in Heq as [Hty Heq]; [| assumption | assumption].
  injection Heq as Hname. repeat split; assumption.
Qed.

Lemma ARN_tells_resources_apart_witness :
  idOf (mkR53 managedZone1 apiRecord) = idOf (mkR53 managedZone1 apiRecord) /\
  typeOf (mkR53 managedZone1 apiRecord) = typeOf (mkR53 managedZone1 apiRecord)
  /\ nameOf (mkR53 managedZone1 apiRecord)
     = nameOf (mkR53 managedZone1 apiRecord).
Proof.
  apply (ARN_tells_resources_apart (mkR53 managedZone1 apiRecord)
           (mkR53 managedZone1 apiRecord)); reflexivity.
Defined.

(** With a colon in the zone id or in the type the identity can be shared:
    the string does not say where one part ends. *)
Example ARN_shared_by_two_resources :
  ARN (mkR53 (mkZone (Some "Z1::A") None) (mkRRS (Some "n") (Some "B") []))
  = ARN (mkR53 (mkZone (Some "Z1") None) (mkRRS (Some "n") (Some "A::B") [])).
Proof. reflexivity. Qed.

(** ** The inventory beside the sweep *)

Lemma managedRecordsOf_keys (svc : Route53) (z : HostedZone)
    (o : route53ResourceRecordSet) :
  In o (managedRecordsOf svc z) -> In (ResourceKey o) (keysOf svc z).
Proof.
  unfold managedRecordsOf, keysOf. intros Ho.
  apply in_map_iff in Ho as (r & <- & Hr).
  apply filter_In in Hr as [Hr _].
  apply in_map_iff. exists r. split; [reflexivity | exact Hr].
Qed.

(** X14: the inventory covers the sweep.  When [ListAll] returns, with an
    error or not, a sweep over the same provider asks for the record sets
    of the same zones in the same order, and every resource it calls
    [Mark] on has an entry in the set [ListAll] returned, under its
    resource key. *)
Theorem inventory_covers_the_sweep
    (now : nat -> Z)
    (Mark : Set_ -> route53ResourceRecordSet -> option Z -> bool * Set_)
    (opts : Options) (svc : Route53) (set : Set_)
    (s : Set_) (err : option error) (trace : list event) :
  ListAll now opts svc = Done (Some s, err, trace) ->
  exists err' set' trace',
    MarkAndSweep Mark opts svc set = Done (err', set', trace') /\
    listings trace = listings trace' /\
    (forall o,
       In o (marks trace') -> is_Some (firstSeen s !! ResourceKey o)).
Proof.
  intros Hdone.
  destruct (ListAll_run now opts svc) as (trace0 & Hrun & Hlist).
  rewrite Hdone in Hrun.
  assert (Hval : s = withWrites (zoneWrites now svc (zonesOf svc) 0) (NewSet 0)
                 /\ trace = trace0).
  { destruct (firstFailure svc (zonesOf svc)) as [[z e] |];
      [destruct (zId z); [| discriminate Hrun] |];
      injection Hrun as -> _ ->; split; reflexivity. }
  destruct Hval as [-> ->].
  destruct (MarkAndSweep_full Mark opts svc set)
    as (trace' & Hsweep & Hm & _ & _ & _ & Hl).
  eexists _, _, trace'. split; [exact Hsweep |].
  split; [rewrite Hlist, Hl; reflexivity |].
  intros o Ho. cbv zeta in Hm. rewrite Hm in Ho.
  apply in_flat_map in Ho as (z & Hz & Ho).
  cbn [withWrites firstSeen NewSet].
  apply applyWrites_lookup. right. rewrite zoneWrites_keys.
  apply in_flat_map. exists z. split; [exact Hz |].
  apply managedRecordsOf_keys, Ho.
Qed.

Lemma inventory_covers_the_sweep_witness :
  exists err' set' trace',
    MarkAndSweep markAlways (sampleOptions false) failingProvider (NewSet 0)
      = Done (err', set', trace') /\
    listings [ListRecords (Some "Z1"); ListRecords (Some "Z2")]
    = listings trace'.
Proof.
  set (s := withWrites
              (zoneWrites Z.of_nat failingProvider (zonesOf failingProvider) 0)
              (NewSet 0)).
  assert (Hrun : ListAll Z.of_nat (sampleOptions false) failingProvider
                 = Done (Some s,
                         Some (Wrapped throttled
                                 "couldn't describe route53 resources for %q in %q zone %q"
                                 ["account"; "us-east-1"; "Z2"]),
                         [Log Info (MsgUnknownZone "example.com.");
                          ListRecords (Some "Z1"); ListRecords (Some "Z2")]))
    by reflexivity.
  destruct (inventory_covers_the_sweep
              Z.of_nat markAlways (sampleOptions false) failingProvider
              (NewSet 0) _ _ _ Hrun)
    as (err' & set' & trace' & Hsweep & Hl & _).
  exists err', set', trace'. split; [exact Hsweep | exact Hl].
Defined.

(** X15: [ListAll] and [MarkAndSweep] fail together.  When [ListAll]
    returns, it returns an error exactly when a sweep over the same
    provider does, and its error is the error of the sweep, wrapped with
    [errors.Wrapf]. *)
Theorem ListAll_fails_when_the_sweep_fails
    (now : nat -> Z)
    (Mark : Set_ -> route53ResourceRecordSet -> option Z -> bool * Set_)
    (opts : Options) (svc : Route53) (set : Set_)
    (s : option Set_) (err : option error) (trace : list event) :
  ListAll now opts svc = Done (s, err, trace) ->
  exists err' set' trace',
    MarkAndSweep Mark opts svc set = Done (err', set', trace') /\
    (err = None <-> err' = None) /\
    (forall cause,
       err' = Some cause ->
       exists format args, err = Some (Wrapped cause format args)).
Proof.
  intros Hdone.
  destruct (ListAll_run now opts svc) as (trace0 & Hrun & _).
  rewrite Hdone in Hrun.
  destruct (MarkAndSweep_full Mark opts svc set) as (trace' & Hsweep & _).
  eexists _, _, trace'. split; [exact Hsweep |].
  unfold sweepError. unfold inventoryError in Hrun.
  destruct (firstFailure svc (zonesOf svc)) as [[z e] |].
  - destruct (zId z); [| discriminate Hrun]. injection Hrun as _ -> _.
    split; [split; discriminate |].
    intros cause [= <-]. eexists _, _. reflexivity.
  - injection Hrun as _ -> _.
    destruct (failure (ListHostedZones svc)) as [e |]; cbn [errors_Wrapf].
    + split; [split; discriminate |].
      intros cause [= <-]. eexists _, _. reflexivity.
    + split; [split; reflexivity | discriminate].
Qed.

Lemma ListAll_fails_when_the_sweep_fails_witness :
  exists err' set' trace',
    MarkAndSweep markAlways (sampleOptions false) zoneListingFails (NewSet 0)
      = Done (err', set', trace') /\
    (Some (Wrapped throttled
             "couldn't describe route53 instance profiles for %q in %q"
             ["account"; "us-east-1"]) = None <-> err' = None).
Proof.
  set (s := withWrites
              (zoneWrites Z.of_nat zoneListingFails
                 (zonesOf zoneListingFails) 0)
              (NewSet 0)).
  assert (Hrun : ListAll Z.of_nat (sampleOptions false) zoneListingFails
                 = Done (Some s,
                         Some (Wrapped throttled
                                 "couldn't describe route53 instance profiles for %q in %q"
                                 ["account"; "us-east-1"]),
                         [Log Info (MsgUnknownZone "example.com.");
                          ListRecords (Some "Z1"); ListRecords (Some "Z3")]))
    by reflexivity.
  destruct (ListAll_fails_when_the_sweep_fails
              Z.of_nat markAlways (sampleOptions false) zoneListingFails
              (NewSet 0) _ _ _ Hrun)
    as (err' & set' & trace' & Hsweep & Hiff & _).
  exists err', set', trace'. split; [exact Hsweep | exact Hiff].
Defined.

(** X16: [ListAll] panics in one case only: the first record listing that
    fails is that of a managed zone whose id pointer is nil, which the
    wording of the error dereferences.  In every other case it returns. *)
Theorem ListAll_panics_only_on_a_nil_zone_id
    (now : nat -> Z) (opts : Options) (svc : Route53) :
  ListAll now opts svc = Panic <->
  exists z e,
    firstFailure svc (zonesOf svc) = Some (z, e) /\ zId z = None.
Proof.
  destruct (ListAll_run now opts svc) as (trace & -> & _).
  destruct (firstFailure svc (zonesOf svc)) as [[z e] |].
  - destruct (zId z) as [id |] eqn:Hid.
    + split; [discriminate |]. intros (z' & e' & [= <- <-] & Hnone).
      congruence.
    + split; [| reflexivity]. intros _. exists z, e. split; [reflexivity | exact Hid].
  - split; [discriminate |]. intros (z & e & Hf & _). discriminate Hf.
Qed.
